(** * Scheduling allocator and background workers of social-content-api

    Shallow embedding of [app/crud.py] ([bulk_schedule_posts]),
    [app/routers/bulk_operations.py] and [app/worker.py]
    ([process_scheduled_posts], [sync_post_analytics]).

    Conventions of the model:
    - a Python [datetime] is a [Z] counting microseconds from midnight of
      proleptic ordinal day 0, so that [t / DAY] is [t.date().toordinal()];
    - a Python [float] is a binary64 [spec_float] of the Standard Library;
    - a raised exception is a value of [PyExc] in the monad [py];
    - the SQLAlchemy session is a pair of databases: [current] holds the
      state of the objects of the session, [committed] what [db.commit()]
      has written; the database rows come back in the order of the table
      list, which stands for the order of a query without ORDER BY. *)

From Stdlib Require Import ZArith List String Ascii Bool Lia.
From Stdlib Require Import Floats.SpecFloat Sorting.Sorted.
Import ListNotations.
Open Scope Z_scope.

(** ** Python exceptions and the error monad *)

Inductive PyExc :=
| TypeError | ValueError | IndexError | KeyError | OverflowError
| ZeroDivisionError | DatabaseError | HTTPError.

Inductive py (A : Type) : Type :=
| Ok (a : A)
| Raise (e : PyExc).
Arguments Ok {A} a.
Arguments Raise {A} e.

Definition py_bind {A B} (c : py A) (k : A -> py B) : py B :=
  match c with
  | Ok a => k a
  | Raise e => Raise e
  end.

Notation "x <- c1 ;; c2" := (py_bind c1 (fun x => c2))
  (at level 61, c1 at next level, right associativity).

(** ** Python [float] (IEEE binary64) *)

Module PyFloat.

Definition prec : Z := 53.
Definition emax : Z := 1024.
Definition float := spec_float.

(** The integer [n] as an (unnormalised) exact binary value [n * 2^0]. *)
Definition exact (n : Z) : float :=
  match n with
  | Z0 => S754_zero false
  | Zpos p => S754_finite false p 0
  | Zneg p => S754_finite true p 0
  end.

(** [float(n)]: correctly rounded conversion. *)
Definition of_int (n : Z) : float := binary_normalize prec emax n 0 false.

(** [a / b] on two Python ints: the exact quotient, correctly rounded
    (CPython's [long_true_divide]); [ZeroDivisionError] when [b = 0],
    [OverflowError] when the quotient is too large for a float. *)
Definition int_truediv (a b : Z) : py float :=
  if b =? 0 then Raise ZeroDivisionError
  else match SFdiv prec emax (exact a) (exact b) with
       | S754_infinity _ => Raise OverflowError
       | r => Ok r
       end.

(** [n * f] (or [f * n]) for a Python int [n] and float [f]. *)
Definition mul_int (f : float) (n : Z) : float := SFmul prec emax f (of_int n).

(** [int(f)]: truncation toward zero. *)
Definition trunc (f : float) : py Z :=
  match f with
  | S754_zero _ => Ok 0
  | S754_infinity _ => Raise OverflowError
  | S754_nan => Raise ValueError
  | S754_finite s m e =>
      let a := if 0 <=? e then Z.shiftl (Zpos m) e else Z.shiftr (Zpos m) (- e) in
      Ok (if s then - a else a)
  end.

(** [f <= k] for a float [f] and an int [k]: Python compares exactly. *)
Definition le_int (f : float) (k : Z) : bool :=
  match f with
  | S754_zero _ => 0 <=? k
  | S754_infinity s => s
  | S754_nan => false
  | S754_finite s m e =>
      let v := if s then Zneg m else Zpos m in
      if 0 <=? e then v * 2 ^ e <=? k else v <=? k * 2 ^ (- e)
  end.

End PyFloat.

(** ** [datetime], [date] and [timedelta] *)

Definition SECOND : Z := 1000000.
Definition MINUTE : Z := 60 * SECOND.
Definition HOUR : Z := 60 * MINUTE.
Definition DAY : Z := 24 * HOUR.
(** [date.max.toordinal()] and [timedelta.max.days] *)
Definition MAXORDINAL : Z := 3652059.
Definition MAX_DELTA_DAYS : Z := 999999999.

Definition dt_date (t : Z) : Z := t / DAY.

(** [datetime.combine(d, datetime.min.time())] *)
Definition combine_min (d : Z) : Z := d * DAY.

(** [date.weekday()] is [(toordinal() + 6) % 7] *)
Definition weekday (d : Z) : Z := (d + 6) mod 7.

(** [t.replace(hour=h, minute=m)]: seconds and microseconds are kept. *)
Definition dt_replace_hm (t h m : Z) : py Z :=
  if (0 <=? h) && (h <=? 23) && (0 <=? m) && (m <=? 59)
  then Ok (dt_date t * DAY + h * HOUR + m * MINUTE + t mod MINUTE)
  else Raise ValueError.

(** [d + timedelta(days=n)] on a date *)
Definition date_add_days (d n : Z) : py Z :=
  if (MAX_DELTA_DAYS <? Z.abs n) then Raise OverflowError
  else if (1 <=? d + n) && (d + n <=? MAXORDINAL) then Ok (d + n)
  else Raise OverflowError.

(** [t + timedelta(days=n)] on a datetime *)
Definition dt_add_days (t n : Z) : py Z :=
  if (MAX_DELTA_DAYS <? Z.abs n) then Raise OverflowError
  else if (1 <=? dt_date t + n) && (dt_date t + n <=? MAXORDINAL)
  then Ok (t + n * DAY)
  else Raise OverflowError.

(** [(t2 - t1).days]: [timedelta] normalises to a floored day count. *)
Definition delta_days (t2 t1 : Z) : Z := (t2 - t1) / DAY.

(** ** [str.split(":")] and [int(str)] *)

Fixpoint split_colon (s : string) : list string :=
  match s with
  | EmptyString => [EmptyString]
  | String c rest =>
      if Ascii.eqb c ":" then EmptyString :: split_colon rest
      else match split_colon rest with
           | h :: t => String c h :: t
           | [] => [String c EmptyString]
           end
  end.

Definition is_space (c : ascii) : bool :=
  existsb (Nat.eqb (nat_of_ascii c)) [9; 10; 11; 12; 13; 32]%nat.

Fixpoint drop_spaces (l : list ascii) : list ascii :=
  match l with
  | c :: r => if is_space c then drop_spaces r else l
  | [] => []
  end.

(** [str.strip()] on the whitespace [int()] ignores *)
Definition strip (l : list ascii) : list ascii := rev (drop_spaces (rev (drop_spaces l))).

Definition digit_value (c : ascii) : option Z :=
  let n := nat_of_ascii c in
  if (48 <=? n)%nat && (n <=? 57)%nat then Some (Z.of_nat n - 48) else None.

(** Digits with single underscores between them, as [int()] accepts;
    [prev_digit] tells whether the previous character was a digit. *)
Fixpoint parse_digits (l : list ascii) (acc : Z) (prev_digit : bool) : option Z :=
  match l with
  | [] => if prev_digit then Some acc else None
  | c :: r =>
      if Ascii.eqb c "_" then
        if prev_digit then parse_digits r acc false else None
      else match digit_value c with
           | Some d => parse_digits r (10 * acc + d) true
           | None => None
           end
  end.

(** [int(s)] for a [str] of ASCII characters *)
Definition py_int (s : string) : py Z :=
  let l := strip (list_ascii_of_string s) in
  let r := match l with
           | c :: rest =>
               if Ascii.eqb c "-" then option_map Z.opp (parse_digits rest 0 false)
               else if Ascii.eqb c "+" then parse_digits rest 0 false
               else parse_digits l 0 false
           | [] => None
           end in
  match r with
  | Some z => Ok z
  | None => Raise ValueError
  end.

Definition py_index {A} (l : list A) (i : nat) : py A :=
  match nth_error l i with
  | Some a => Ok a
  | None => Raise IndexError
  end.

(** [time_parts = time_slot.split(":")]
    [hour, minute = int(time_parts[0]), int(time_parts[1])] *)
Definition parse_time_slot (slot : string) : py (Z * Z) :=
  let time_parts := split_colon slot in
  p0 <- py_index time_parts 0 ;;
  hour <- py_int p0 ;;
  p1 <- py_index time_parts 1 ;;
  minute <- py_int p1 ;;
  Ok (hour, minute).

(** ** Data model ([app/models.py]) *)

Module Models.

Inductive PostStatus := DRAFT | SCHEDULED | PUBLISHED | FAILED.

Definition PostStatus_eqb (a b : PostStatus) : bool :=
  match a, b with
  | DRAFT, DRAFT | SCHEDULED, SCHEDULED | PUBLISHED, PUBLISHED
  | FAILED, FAILED => true
  | _, _ => false
  end.

Record Post := mkPost {
  id : Z;
  author_id : Z;
  content : string;
  image_url : option string;
  status : PostStatus;
  scheduled_time : option Z;
  published_time : option Z;
  linkedin_post_id : option string;
  linkedin_share_url : option string }.

Record User := mkUser {
  user_id : Z;
  linkedin_access_token : option string;
  linkedin_refresh_token : option string;
  linkedin_token_expires_at : option Z;
  linkedin_profile_id : option string }.

(** Integer columns are [None] on an object built but not yet flushed:
    their column default (0) is applied by the INSERT. *)
Record Analytics := mkAnalytics {
  an_post_id : Z;
  an_user_id : Z;
  impressions : option Z;
  clicks : option Z;
  likes : option Z;
  comments : option Z;
  shares : option Z;
  engagement_rate : option Z;
  last_synced : option Z }.

Record Db := mkDb {
  posts : list Post;
  users : list User;
  analytics : list Analytics }.

End Models.
Import Models.

(** Python truthiness of an optional string column *)
Definition truthy (s : option string) : bool :=
  match s with
  | Some (String _ _) => true
  | _ => false
  end.

Definition set_post_schedule (t : Z) (p : Post) : Post :=
  mkPost (id p) (author_id p) (content p) (image_url p) SCHEDULED (Some t)
    (published_time p) (linkedin_post_id p) (linkedin_share_url p).

(** ** The allocator: [crud.bulk_schedule_posts] *)

(** The decoded value of ["start_date"] / ["end_date"] handed to
    [datetime.fromisoformat]: the key is missing ([fromisoformat(None)]
    raises [TypeError]), the value is not an ISO datetime ([ValueError]),
    or it parses to a naive datetime. Strings with a UTC offset, which
    parse to aware datetimes, are not modelled. *)
Inductive DateArg := DateMissing | DateUnparsable | DateParsed (t : Z).

Definition fromisoformat (a : DateArg) : py Z :=
  match a with
  | DateMissing => Raise TypeError
  | DateUnparsable => Raise ValueError
  | DateParsed t => Ok t
  end.

(** [schedule_config]; [None] is a key absent from the dict, so that
    [schedule_config.get(key, default)] yields the default. *)
Record ScheduleConfig := mkConfig {
  cfg_start_date : DateArg;
  cfg_end_date : DateArg;
  cfg_time_slots : option (list string);
  cfg_days : option (list string);
  cfg_weeks_ahead : option Z;
  cfg_days_ahead : option Z }.

Definition get_default {A} (o : option A) (d : A) : A :=
  match o with Some a => a | None => d end.

Definition default_slots : list string := ["09:00"%string].

(** [db.query(Post).filter(Post.id.in_(post_ids), Post.author_id == user_id).all()] *)
Definition query_posts (tbl : list Post) (post_ids : list Z) (user_id : Z) : list Post :=
  filter (fun p => existsb (Z.eqb (id p)) post_ids && (author_id p =? user_id)) tbl.

(** evenly_spaced, branch [posts_per_day <= len(time_slots)] *)
Fixpoint evenly_fill (ps : list Post) (current_date end_date : Z)
    (time_slots : list string) (time_slot_index : nat) : py (list (Z * Z)) :=
  match ps with
  | [] => Ok []
  | post :: rest =>
      if end_date <? current_date then Ok []
      else
        slot <- py_index time_slots time_slot_index ;;
        hm <- parse_time_slot slot ;;
        scheduled_time <- dt_replace_hm current_date (fst hm) (snd hm) ;;
        let idx := S time_slot_index in
        tl <- (if (List.length time_slots <=? idx)%nat
               then next <- dt_add_days current_date 1 ;;
                    evenly_fill rest next end_date time_slots 0
               else evenly_fill rest current_date end_date time_slots idx) ;;
        Ok ((id post, scheduled_time) :: tl)
  end.

(** evenly_spaced, branch [posts_per_day > len(time_slots)] *)
Fixpoint evenly_spread (ps : list Post) (i : Z) (start_date : Z)
    (days_per_post : PyFloat.float) (time_slots : list string) : py (list (Z * Z)) :=
  match ps with
  | [] => Ok []
  | post :: rest =>
      day_offset <- PyFloat.trunc (PyFloat.mul_int days_per_post i) ;;
      current_date <- dt_add_days start_date day_offset ;;
      slot <- py_index time_slots 0 ;;
      hm <- parse_time_slot slot ;;
      scheduled_time <- dt_replace_hm current_date (fst hm) (snd hm) ;;
      tl <- evenly_spread rest (i + 1) start_date days_per_post time_slots ;;
      Ok ((id post, scheduled_time) :: tl)
  end.

Definition evenly_spaced (ps : list Post) (cfg : ScheduleConfig) : py (list (Z * Z)) :=
  start_date <- fromisoformat (cfg_start_date cfg) ;;
  end_date <- fromisoformat (cfg_end_date cfg) ;;
  let time_slots := get_default (cfg_time_slots cfg) default_slots in
  let days_between := delta_days end_date start_date + 1 in
  posts_per_day <- PyFloat.int_truediv (Z.of_nat (List.length ps)) days_between ;;
  if PyFloat.le_int posts_per_day (Z.of_nat (List.length time_slots))
  then evenly_fill ps start_date end_date time_slots 0
  else
    days_per_post <- PyFloat.int_truediv days_between (Z.of_nat (List.length ps)) ;;
    evenly_spread ps 0 start_date days_per_post time_slots.

(** specific_days: [day_map] *)
Definition day_map (day : string) : option Z :=
  if String.eqb day "Monday" then Some 0
  else if String.eqb day "Tuesday" then Some 1
  else if String.eqb day "Wednesday" then Some 2
  else if String.eqb day "Thursday" then Some 3
  else if String.eqb day "Friday" then Some 4
  else if String.eqb day "Saturday" then Some 5
  else if String.eqb day "Sunday" then Some 6
  else None.

(** [[day_map[day] for day in days if day in day_map]] *)
Definition to_weekdays (days : list string) : list Z :=
  flat_map (fun day => match day_map day with Some n => [n] | None => [] end) days.

(** [for time_slot in time_slots: ... if scheduled_time > now: append] *)
Fixpoint day_candidates (now current_date : Z) (time_slots : list string) : py (list Z) :=
  match time_slots with
  | [] => Ok []
  | time_slot :: rest =>
      hm <- parse_time_slot time_slot ;;
      scheduled_time <- dt_replace_hm (combine_min current_date) (fst hm) (snd hm) ;;
      tl <- day_candidates now current_date rest ;;
      Ok (if now <? scheduled_time then scheduled_time :: tl else tl)
  end.

(** [while current_date <= end_date: ...; current_date += timedelta(days=1)];
    [fuel] is the number of iterations of the loop,
    [end_date - current_date + 1]. *)
Fixpoint possible_dates_loop (fuel : nat) (now current_date end_date : Z)
    (weekdays : list Z) (time_slots : list string) : py (list Z) :=
  match fuel with
  | O => Ok []
  | S fuel' =>
      if end_date <? current_date then Ok []
      else
        here <- (if existsb (Z.eqb (weekday current_date)) weekdays
                 then day_candidates now current_date time_slots
                 else Ok []) ;;
        next <- date_add_days current_date 1 ;;
        tl <- possible_dates_loop fuel' now next end_date weekdays time_slots ;;
        Ok (here ++ tl)
  end.

(** [for i, post in enumerate(posts): if i < len(possible_dates): ...] *)
Fixpoint assign_dates (ps : list Post) (possible_dates : list Z) : list (Z * Z) :=
  match ps, possible_dates with
  | post :: ps', d :: ds => (id post, d) :: assign_dates ps' ds
  | _, _ => []
  end.

Definition specific_days (now : Z) (ps : list Post) (cfg : ScheduleConfig)
    : py (list (Z * Z)) :=
  let days := get_default (cfg_days cfg) ["Monday"%string] in
  let time_slots := get_default (cfg_time_slots cfg) default_slots in
  let weeks_ahead := get_default (cfg_weeks_ahead cfg) 4 in
  let weekdays := to_weekdays days in
  let current_date := dt_date now in
  end_date <- date_add_days current_date (7 * weeks_ahead) ;;
  possible_dates <- possible_dates_loop (S (Z.to_nat (end_date - current_date)))
                      now current_date end_date weekdays time_slots ;;
  Ok (assign_dates ps possible_dates).

Definition optimal_hours : list Z := [9; 12; 17; 20].

(** [for hour in optimal_hours: if post_index >= len(posts): break ...];
    [remaining] is [posts[post_index:]]. *)
Fixpoint optimal_hours_loop (now current_date : Z) (hours : list Z)
    (remaining : list Post) : py (list (Z * Z) * list Post) :=
  match hours with
  | [] => Ok ([], remaining)
  | hour :: hs =>
      match remaining with
      | [] => Ok ([], [])
      | post :: rest =>
          scheduled_time <- dt_replace_hm (combine_min current_date) hour 0 ;;
          if now <? scheduled_time
          then r <- optimal_hours_loop now current_date hs rest ;;
               Ok ((id post, scheduled_time) :: fst r, snd r)
          else optimal_hours_loop now current_date hs remaining
      end
  end.

(** [for day in range(days_ahead): ...; current_date += timedelta(days=1);
    if post_index >= len(posts): break] *)
Fixpoint optimal_days_loop (days : nat) (now current_date : Z) (remaining : list Post)
    : py (list (Z * Z)) :=
  match days with
  | O => Ok []
  | S d =>
      r <- optimal_hours_loop now current_date optimal_hours remaining ;;
      next <- date_add_days current_date 1 ;;
      match snd r with
      | [] => Ok (fst r)
      | rem => tl <- optimal_days_loop d now next rem ;; Ok (fst r ++ tl)
      end
  end.

Definition optimal_times (now : Z) (ps : list Post) (cfg : ScheduleConfig)
    : py (list (Z * Z)) :=
  let days_ahead := get_default (cfg_days_ahead cfg) 14 in
  optimal_days_loop (Z.to_nat days_ahead) now (dt_date now) ps.

(** [for post_id, scheduled_time in schedule_times: post = next(...);
    post.scheduled_time = ...; post.status = SCHEDULED] (ids are the
    primary key of the table) *)
Definition apply_schedule (tbl : list Post) (schedule : list (Z * Z)) : list Post :=
  fold_left (fun tbl' pt =>
               map (fun p => if id p =? fst pt then set_post_schedule (snd pt) p else p) tbl')
            schedule tbl.

Inductive BulkOutcome :=
| NoneResult
| Raised (e : PyExc)
| Preview (schedule : list (Z * Z)).

(** [crud.bulk_schedule_posts]: the committed posts table and the outcome *)
Definition bulk_schedule_posts (tbl : list Post) (post_ids : list Z)
    (schedule_type : string) (cfg : ScheduleConfig) (user_id now : Z)
    : list Post * BulkOutcome :=
  let ps := query_posts tbl post_ids user_id in
  if match ps with [] => true | _ => false end
     || negb (List.length ps =? List.length post_ids)%nat
  then (tbl, NoneResult)
  else
    let r := if String.eqb schedule_type "evenly_spaced" then evenly_spaced ps cfg
             else if String.eqb schedule_type "specific_days" then specific_days now ps cfg
             else if String.eqb schedule_type "optimal_times" then optimal_times now ps cfg
             else Ok [] in
    match r with
    | Raise e => (tbl, Raised e)
    | Ok schedule_times => (apply_schedule tbl schedule_times, Preview schedule_times)
    end.

Inductive HttpResponse :=
| Http200 (body : list (Z * Z))
| Http400
| Http500.

(** [routers/bulk_operations.bulk_schedule_posts]: [None] becomes a 400,
    an exception escaping the handler a 500 (the session is closed
    without commit). *)
Definition bulk_schedule_endpoint (tbl : list Post) (post_ids : list Z)
    (schedule_type : string) (cfg : ScheduleConfig) (user_id now : Z)
    : list Post * HttpResponse :=
  let '(tbl', o) := bulk_schedule_posts tbl post_ids schedule_type cfg user_id now in
  (tbl', match o with
         | NoneResult => Http400
         | Raised _ => Http500
         | Preview s => Http200 s
         end).

(** ** The worker ([app/worker.py]) *)

(** What a cycle does, in order: status assignments, commits and the
    calls to the external platform. *)
Inductive Event :=
| EvStatus (pid : Z) (st : PostStatus)   (** [post.status = st] *)
| EvCommit                               (** [db.commit()] *)
| EvRefresh (uid : Z)                    (** [linkedin_api.refresh_access_token] *)
| EvPublish (pid : Z) (image : bool)     (** [create_image_post] / [create_text_post] *)
| EvFetchMetrics (pid : Z).              (** [get_post_analytics] *)

Record Session := mkSession {
  committed : Db;
  current : Db;
  trace : list Event }.

(** Session code: state passing with Python exceptions; the state reached
    when an exception is raised is kept, as the ORM objects keep their
    assignments. *)
Definition M (A : Type) : Type := Session -> Session * py A.

Definition ret {A} (a : A) : M A := fun s => (s, Ok a).

Definition bind {A B} (m : M A) (k : A -> M B) : M B :=
  fun s => let (s', r) := m s in
           match r with
           | Ok a => k a s'
           | Raise e => (s', Raise e)
           end.

Definition raise {A} (e : PyExc) : M A := fun s => (s, Raise e).

(** [try: m except Exception as e: h e] *)
Definition try_except {A} (m : M A) (h : PyExc -> M A) : M A :=
  fun s => let (s', r) := m s in
           match r with
           | Ok a => (s', Ok a)
           | Raise e => h e s'
           end.

Notation "'let!' x ':=' c 'in' k" := (bind c (fun x => k))
  (at level 200, x name, c at level 100, k at level 200).

Definition get_current : M Db := fun s => (s, Ok (current s)).

Definition modify_current (f : Db -> Db) : M unit :=
  fun s => (mkSession (committed s) (f (current s)) (trace s), Ok tt).

Definition emit (e : Event) : M unit :=
  fun s => (mkSession (committed s) (current s) (trace s ++ [e]), Ok tt).

(** Column defaults, applied by the INSERT of a new analytics row. *)
Definition flush_defaults (a : Analytics) : Analytics :=
  mkAnalytics (an_post_id a) (an_user_id a)
    (Some (get_default (impressions a) 0)) (Some (get_default (clicks a) 0))
    (Some (get_default (likes a) 0)) (Some (get_default (comments a) 0))
    (Some (get_default (shares a) 0)) (Some (get_default (engagement_rate a) 0))
    (last_synced a).

Definition flush (d : Db) : Db :=
  mkDb (posts d) (users d) (map flush_defaults (analytics d)).

Definition commit : M unit :=
  fun s => let d := flush (current s) in
           (mkSession d d (trace s ++ [EvCommit]), Ok tt).

Definition update_post_in (pid : Z) (f : Post -> Post) (d : Db) : Db :=
  mkDb (map (fun p => if id p =? pid then f p else p) (posts d)) (users d) (analytics d).

Definition update_user_in (uid : Z) (f : User -> User) (d : Db) : Db :=
  mkDb (posts d) (map (fun u => if user_id u =? uid then f u else u) (users d)) (analytics d).

(** The session object of the analytics row of [an_post_id a] becomes [a]
    ([db.add] when there is none). *)
Definition upsert_analytics_in (a : Analytics) (d : Db) : Db :=
  if existsb (fun b => an_post_id b =? an_post_id a) (analytics d)
  then mkDb (posts d) (users d)
         (map (fun b => if an_post_id b =? an_post_id a then a else b) (analytics d))
  else mkDb (posts d) (users d) (analytics d ++ [a]).

Definition with_status (st : PostStatus) (p : Post) : Post :=
  mkPost (id p) (author_id p) (content p) (image_url p) st (scheduled_time p)
    (published_time p) (linkedin_post_id p) (linkedin_share_url p).

Definition set_status (pid : Z) (st : PostStatus) : M unit :=
  let! _ := modify_current (update_post_in pid (with_status st)) in
  emit (EvStatus pid st).

(** [models.Analytics(post_id=..., user_id=..., last_synced=...)] *)
Definition new_analytics (pid uid : Z) (ls : option Z) : Analytics :=
  mkAnalytics pid uid None None None None None None ls.

(** Answers of the external collaborators and of the database. *)
Record RefreshResponse := mkRefreshResponse {
  rr_access_token : option (option string);   (** [None]: key absent *)
  rr_refresh_token : option (option string);  (** [None]: key absent *)
  rr_expires_in : option Z }.                 (** [None]: key absent *)

Inductive RefreshOutcome :=
| RefreshFails                       (** the request raises *)
| RefreshReturns (r : RefreshResponse).

(** The JSON answer of the publish call: a key is absent ([None]), null
    ([Some None]) or a string. *)
Record PublishResponse := mkPublishResponse {
  resp_id : option (option string);
  resp_share_url : option (option string) }.

(** [response.get(key, "")] *)
Definition response_get (v : option (option string)) : option string :=
  match v with
  | None => Some EmptyString
  | Some x => x
  end.

Record Externals := mkExternals {
  (** [linkedin_api.refresh_access_token(refresh_token)] *)
  ext_refresh_access_token : string -> RefreshOutcome;
  (** the publish call for a user, a post, and the image variant or not;
      [None] when it raises *)
  ext_publish : User -> Post -> bool -> option PublishResponse;
  (** [get_post_analytics(linkedin_post_id)]: likes, comments, shares;
      [None] when it raises *)
  ext_get_post_analytics : string -> option (Z * Z * Z);
  (** the analytics lookup of a post raises a database error *)
  ext_analytics_query_fails : Z -> bool }.

Definition get_user (uid : Z) : M (option User) :=
  fun s => (s, Ok (find (fun u => user_id u =? uid) (users (current s)))).

(** [db.query(models.Analytics).filter(models.Analytics.post_id == pid).first()] *)
Definition get_analytics (ext : Externals) (pid : Z) : M (option Analytics) :=
  fun s => if ext_analytics_query_fails ext pid then (s, Raise DatabaseError)
           else (s, Ok (find (fun a => an_post_id a =? pid) (analytics (current s)))).

(** [user.linkedin_token_expires_at and user.linkedin_token_expires_at <= now] *)
Definition token_expired (now : Z) (u : User) : bool :=
  match linkedin_token_expires_at u with
  | Some t => t <=? now
  | None => false
  end.

Definition set_access_token (v : option string) (u : User) : User :=
  mkUser (user_id u) v (linkedin_refresh_token u) (linkedin_token_expires_at u)
    (linkedin_profile_id u).

Definition set_refresh_token (v : option string) (u : User) : User :=
  mkUser (user_id u) (linkedin_access_token u) v (linkedin_token_expires_at u)
    (linkedin_profile_id u).

Definition set_expires_at (v : option Z) (u : User) : User :=
  mkUser (user_id u) (linkedin_access_token u) (linkedin_refresh_token u) v
    (linkedin_profile_id u).

(** [now + timedelta(seconds=secs)] *)
Definition dt_add_seconds (t secs : Z) : py Z :=
  let r := t + secs * SECOND in
  if (MAX_DELTA_DAYS * 86400 <? Z.abs secs) then Raise OverflowError
  else if (1 <=? dt_date r) && (dt_date r <=? MAXORDINAL) then Ok r
  else Raise OverflowError.

(** The body of [try: token_data = refresh_access_token(...) ... db.commit()],
    shared by both workers. *)
Definition refresh_token (now : Z) (ext : Externals) (u : User) (rt : string) : M unit :=
  let uid := user_id u in
  let! _ := emit (EvRefresh uid) in
  match ext_refresh_access_token ext rt with
  | RefreshFails => raise HTTPError
  | RefreshReturns token_data =>
      match rr_access_token token_data with
      | None => raise KeyError
      | Some acc =>
          let! _ := modify_current (update_user_in uid (set_access_token acc)) in
          let! _ := modify_current (update_user_in uid (fun v =>
                      set_refresh_token (get_default (rr_refresh_token token_data)
                                                     (linkedin_refresh_token v)) v)) in
          match rr_expires_in token_data with
          | None => raise KeyError
          | Some secs =>
              match dt_add_seconds now secs with
              | Raise e => raise e
              | Ok t =>
                  let! _ := modify_current (update_user_in uid (set_expires_at (Some t))) in
                  commit
              end
          end
      end
  end.

(** *** [process_scheduled_posts] *)

(** [status == SCHEDULED, scheduled_time <= now + 5min,
    scheduled_time > now - 5min]; a NULL [scheduled_time] satisfies no
    comparison. *)
Definition due_posts (now : Z) (tbl : list Post) : list Post :=
  filter (fun p => PostStatus_eqb (status p) SCHEDULED
                   && match scheduled_time p with
                      | Some t => (t <=? now + 5 * MINUTE) && (now - 5 * MINUTE <? t)
                      | None => false
                      end) tbl.

(** [post.status = FAILED; db.commit()] *)
Definition fail_post (pid : Z) : M unit :=
  let! _ := set_status pid FAILED in
  commit.

Definition mark_published (now : Z) (resp : PublishResponse) (p : Post) : Post :=
  mkPost (id p) (author_id p) (content p) (image_url p) PUBLISHED (scheduled_time p)
    (Some now) (response_get (resp_id resp)) (response_get (resp_share_url resp)).

(** Lines 83-119: publish, mark Published, create the analytics row. *)
Definition publish_post (now : Z) (ext : Externals) (p : Post) : M unit :=
  let! uo := get_user (author_id p) in
  match uo with
  | None => ret tt
  | Some u =>
      let image := truthy (image_url p) in
      let! _ := emit (EvPublish (id p) image) in
      match ext_publish ext u p image with
      | None => raise HTTPError
      | Some response =>
          let! _ := modify_current (update_post_in (id p) (mark_published now response)) in
          let! _ := emit (EvStatus (id p) PUBLISHED) in
          let! _ := commit in
          let! a := get_analytics ext (id p) in
          match a with
          | Some _ => ret tt
          | None =>
              let! _ := modify_current (upsert_analytics_in
                                          (new_analytics (id p) (user_id u) (Some now))) in
              commit
          end
      end
  end.

(** One iteration of [for post in scheduled_posts] (lines 47-124). *)
Definition process_post (now : Z) (ext : Externals) (p : Post) : M unit :=
  try_except
    (let! uo := get_user (author_id p) in
     match uo with
     | None => ret tt
     | Some u =>
         if negb (truthy (linkedin_access_token u)) then fail_post (id p)
         else if token_expired now u then
           if negb (truthy (linkedin_refresh_token u)) then fail_post (id p)
           else
             let! proceed :=
               try_except
                 (let! _ := refresh_token now ext u
                              (get_default (linkedin_refresh_token u) EmptyString) in
                  ret true)
                 (fun _ => let! _ := fail_post (id p) in ret false) in
             if proceed then publish_post now ext p else ret tt
         else publish_post now ext p
     end)
    (fun _ => fail_post (id p)).

Fixpoint process_each (now : Z) (ext : Externals) (ps : list Post) : M unit :=
  match ps with
  | [] => ret tt
  | p :: rest => let! _ := process_post now ext p in process_each now ext rest
  end.

Definition process_scheduled_posts (now : Z) (ext : Externals) : M unit :=
  let! d := get_current in
  process_each now ext (due_posts now (posts d)).

Definition init_session (db : Db) : Session := mkSession db db [].

(** A cycle on a database: what is committed when [db.close()] runs, and
    the trace of the cycle. *)
Definition run_publish_cycle (now : Z) (ext : Externals) (db : Db) : Db * list Event :=
  let (s, _) := process_scheduled_posts now ext (init_session db) in
  (committed s, trace s).

(** *** [sync_post_analytics] *)

Definition opt_ge (o : option Z) (b : Z) : bool :=
  match o with Some t => b <=? t | None => false end.

Definition opt_le (o : option Z) (b : Z) : bool :=
  match o with Some t => t <=? b | None => false end.

(** The filter of lines 148-161; NULL satisfies no comparison and the
    expression has no negation, so NULL counts as false. *)
Definition sync_eligible (now : Z) (ans : list Analytics) (p : Post) : bool :=
  let one_day_ago := now - DAY in
  let one_week_ago := now - 7 * DAY in
  PostStatus_eqb (status p) PUBLISHED
  && (match linkedin_post_id p with Some _ => true | None => false end)
  && (opt_ge (published_time p) one_day_ago
      || (existsb (fun a => (an_post_id a =? id p) && opt_le (last_synced a) one_day_ago) ans
          && opt_ge (published_time p) one_week_ago)).

(** [... .limit(20).all()] *)
Definition posts_to_sync (now : Z) (d : Db) : list Post :=
  firstn 20 (filter (sync_eligible now (analytics d)) (posts d)).

(** [posts_by_user[post.author_id].append(post)] on an insertion-ordered dict *)
Fixpoint add_to_group (uid : Z) (p : Post) (g : list (Z * list Post)) : list (Z * list Post) :=
  match g with
  | [] => [(uid, [p])]
  | (k, ps) :: rest =>
      if k =? uid then (k, ps ++ [p]) :: rest else (k, ps) :: add_to_group uid p rest
  end.

Definition group_by_user (ps : list Post) : list (Z * list Post) :=
  fold_left (fun g p => add_to_group (author_id p) p g) ps [].

(** [int((total_engagement / analytics.impressions) * 10000)] *)
Definition py_engagement_rate (total imp : Z) : py Z :=
  q <- PyFloat.int_truediv total imp ;;
  PyFloat.trunc (PyFloat.mul_int q 10000).

Definition set_counts (lk cm sh : Z) (a : Analytics) : Analytics :=
  mkAnalytics (an_post_id a) (an_user_id a) (impressions a) (clicks a)
    (Some lk) (Some cm) (Some sh) (engagement_rate a) (last_synced a).

Definition set_engagement (r : Z) (a : Analytics) : Analytics :=
  mkAnalytics (an_post_id a) (an_user_id a) (impressions a) (clicks a)
    (likes a) (comments a) (shares a) (Some r) (last_synced a).

Definition set_last_synced (t : Z) (a : Analytics) : Analytics :=
  mkAnalytics (an_post_id a) (an_user_id a) (impressions a) (clicks a)
    (likes a) (comments a) (shares a) (engagement_rate a) (Some t).

(** Lines 223-232 on the analytics object: the object afterwards, and the
    exception raised on the way if any ([None > 0] raises [TypeError]). *)
Definition update_metrics (now : Z) (a : Analytics) (lk cm sh : Z)
    : Analytics * option PyExc :=
  let a1 := set_counts lk cm sh a in
  let total_engagement := lk + cm + sh in
  match impressions a1 with
  | None => (a1, Some TypeError)
  | Some imp =>
      if 0 <? imp then
        match py_engagement_rate total_engagement imp with
        | Ok r => (set_last_synced now (set_engagement r a1), None)
        | Raise e => (a1, Some e)
        end
      else (set_last_synced now a1, None)
  end.

(** One iteration of [for post in posts] (lines 209-235). *)
Definition sync_one (now : Z) (ext : Externals) (uid : Z) (p : Post) : M unit :=
  let! _ := emit (EvFetchMetrics (id p)) in
  match ext_get_post_analytics ext (get_default (linkedin_post_id p) "None"%string) with
  | None => raise HTTPError
  | Some (lk, cm, sh) =>
      let! ao := get_analytics ext (id p) in
      let! a0 := match ao with
                 | Some a => ret a
                 | None =>
                     let a := new_analytics (id p) uid None in
                     let! _ := modify_current (upsert_analytics_in a) in
                     ret a
                 end in
      let (a1, err) := update_metrics now a0 lk cm sh in
      let! _ := modify_current (upsert_analytics_in a1) in
      match err with
      | Some e => raise e
      | None => commit
      end
  end.

Fixpoint sync_each (now : Z) (ext : Externals) (uid : Z) (ps : list Post) : M unit :=
  match ps with
  | [] => ret tt
  | p :: rest =>
      let! _ := try_except (sync_one now ext uid p) (fun _ => ret tt) in
      sync_each now ext uid rest
  end.

(** One iteration of [for user_id, posts in posts_by_user.items()]. *)
Definition sync_group (now : Z) (ext : Externals) (uid : Z) (ps : list Post) : M unit :=
  try_except
    (let! uo := get_user uid in
     match uo with
     | None => ret tt
     | Some u =>
         if negb (truthy (linkedin_access_token u)) then ret tt
         else
           let! proceed :=
             if token_expired now u then
               if negb (truthy (linkedin_refresh_token u)) then ret false
               else try_except
                      (let! _ := refresh_token now ext u
                                   (get_default (linkedin_refresh_token u) EmptyString) in
                       ret true)
                      (fun _ => ret false)
             else ret true in
           if proceed then sync_each now ext uid ps else ret tt
     end)
    (fun _ => ret tt).

Fixpoint sync_groups (now : Z) (ext : Externals) (g : list (Z * list Post)) : M unit :=
  match g with
  | [] => ret tt
  | (uid, ps) :: rest => let! _ := sync_group now ext uid ps in sync_groups now ext rest
  end.

Definition sync_post_analytics (now : Z) (ext : Externals) : M unit :=
  let! d := get_current in
  sync_groups now ext (group_by_user (posts_to_sync now d)).

Definition run_sync_cycle (now : Z) (ext : Externals) (db : Db) : Db * list Event :=
  let (s, _) := sync_post_analytics now ext (init_session db) in
  (committed s, trace s).

(** ** Analytics summary ([crud.get_analytics_summary]) *)

(** [sum(f(a) for a in l)]: [0 + x1 + x2 + ...]; a NULL column raises
    [TypeError] on the addition. *)
Fixpoint py_sum_opt (l : list (option Z)) (acc : Z) : py Z :=
  match l with
  | [] => Ok acc
  | Some v :: rest => py_sum_opt rest (acc + v)
  | None :: _ => Raise TypeError
  end.

(** [a + b + c] on integer columns *)
Definition py_add3 (a b c : option Z) : py Z :=
  match a, b with
  | Some x, Some y => match c with Some z => Ok (x + y + z) | None => Raise TypeError end
  | _, _ => Raise TypeError
  end.

(** [author_id == user_id, status == PUBLISHED, start_date <= published_time <= end_date] *)
Definition summary_posts (start_date end_date uid : Z) (tbl : list Post) : list Post :=
  filter (fun p => (author_id p =? uid) && PostStatus_eqb (status p) PUBLISHED
                   && match published_time p with
                      | Some t => (start_date <=? t) && (t <=? end_date)
                      | None => false
                      end) tbl.

(** [Analytics.post_id.in_(post_ids)] *)
Definition summary_analytics (post_ids : list Z) (ans : list Analytics) : list Analytics :=
  filter (fun a => existsb (Z.eqb (an_post_id a)) post_ids) ans.

(** The [for post in posts] loop choosing [best_post]. *)
Fixpoint best_post_loop (ps : list Post) (ans : list Analytics)
    (best_post : option Post) (best_engagement : Z) : py (option Post) :=
  match ps with
  | [] => Ok best_post
  | post :: rest =>
      match find (fun a => an_post_id a =? id post) ans with
      | Some pa =>
          post_engagement <- py_add3 (likes pa) (comments pa) (shares pa) ;;
          if best_engagement <? post_engagement
          then best_post_loop rest ans (Some post) post_engagement
          else best_post_loop rest ans best_post best_engagement
      | None => best_post_loop rest ans best_post best_engagement
      end
  end.

(** A Python number: [engagement_rate] is the int [0] or a float. *)
Inductive PyNum := NInt (n : Z) | NFloat (f : PyFloat.float).

Record Summary := mkSummary {
  total_posts : Z;
  total_impressions : Z;
  total_clicks : Z;
  total_likes : Z;
  total_comments : Z;
  total_shares : Z;
  summary_engagement_rate : PyNum;
  best_performing_post : option Z }.

(** [end_date] is [datetime.utcnow()], here [now]. *)
Definition get_analytics_summary (now : Z) (d : Db) (user_id days : Z) : py Summary :=
  let end_date := now in
  start_date <- dt_add_days end_date (- days) ;;
  let ps := summary_posts start_date end_date user_id (posts d) in
  let post_ids := map id ps in
  let ans := summary_analytics post_ids (analytics d) in
  total_impressions <- py_sum_opt (map impressions ans) 0 ;;
  total_clicks <- py_sum_opt (map clicks ans) 0 ;;
  total_likes <- py_sum_opt (map likes ans) 0 ;;
  total_comments <- py_sum_opt (map comments ans) 0 ;;
  total_shares <- py_sum_opt (map shares ans) 0 ;;
  let engagement_actions := total_likes + total_comments + total_shares in
  engagement_rate <- (if 0 <? total_impressions
                      then r <- PyFloat.int_truediv engagement_actions total_impressions ;;
                           Ok (NFloat (PyFloat.mul_int r 100))
                      else Ok (NInt 0)) ;;
  best_post <- best_post_loop ps ans None 0 ;;
  Ok (mkSummary (Z.of_nat (List.length ps)) total_impressions total_clicks total_likes
                total_comments total_shares engagement_rate (option_map id best_post)).

(** ** Post metrics routes ([routers/analytics.py]) *)

(** [hasattr(models.Analytics, k)]: the mapped attributes, the attributes
    [declarative_base()] gives the class, and the underscore names of the
    class machinery. *)
Definition analytics_has_attr (k : string) : bool :=
  existsb (String.eqb k)
    ["id"; "impressions"; "clicks"; "likes"; "comments"; "shares"; "engagement_rate";
     "created_at"; "updated_at"; "last_synced"; "post_id"; "user_id"; "post";
     "metadata"; "registry"]%string
  || match k with String "_" _ => true | _ => false end.

(** The keys of [analytics.dict()] for a [schemas.AnalyticsUpdate]: every
    field of [AnalyticsBase], set or not. *)
Definition analytics_update_keys : list string :=
  ["impressions"; "clicks"; "likes"; "comments"; "shares"; "engagement_rate";
   "data_points"]%string.

(** The declarative constructor raises [TypeError] on a keyword that is not
    an attribute of the class. *)
Definition declarative_ctor_ok (kwargs : list string) : bool :=
  forallb analytics_has_attr kwargs.

(** [crud.get_post_analytics] *)
Definition get_post_analytics (d : Db) (post_id user_id : Z) : option Analytics :=
  find (fun a => (an_post_id a =? post_id) && (an_user_id a =? user_id)) (analytics d).

(** [crud.get_post] *)
Definition get_post (d : Db) (post_id : Z) : option Post :=
  find (fun p => id p =? post_id) (posts d).

Inductive AnalyticsResponse :=
| AnOk (a : Analytics)
| AnNotFound      (** [HTTPException(404)] *)
| AnServerError.  (** an exception escaping the handler *)

Section MetricsRoutes.

(** The request body, a [schemas.AnalyticsUpdate]. *)
Variable AnalyticsUpdate : Type.
(** [db.add(db_analytics); db.commit(); db.refresh(db_analytics)] once the
    constructor has accepted the values of the body. *)
Variable insert_new : Db -> Z -> Z -> AnalyticsUpdate -> py (Db * Analytics).
(** The [else] branch: [setattr] of the fields set in the body, then the
    commit and the refresh. *)
Variable update_existing : Db -> Analytics -> AnalyticsUpdate -> py (Db * Analytics).

(** [crud.create_or_update_analytics] *)
Definition create_or_update_analytics (d : Db) (upd : AnalyticsUpdate) (post_id user_id : Z)
    : py (Db * Analytics) :=
  match get_post_analytics d post_id user_id with
  | None =>
      if declarative_ctor_ok ("post_id" :: "user_id" :: analytics_update_keys)%string
      then insert_new d post_id user_id upd
      else Raise TypeError
  | Some db_analytics => update_existing d db_analytics upd
  end.

(** The answer of a handler and the database left by its session. *)
Definition metrics_response (d : Db) (r : py (Db * Analytics)) : Db * AnalyticsResponse :=
  match r with
  | Ok (d', a) => (d', AnOk a)
  | Raise _ => (d, AnServerError)
  end.

(** [GET /analytics/posts/{post_id}]; [empty] is [schemas.AnalyticsUpdate()]. *)
Definition read_post_analytics (d : Db) (empty : AnalyticsUpdate) (post_id uid : Z)
    : Db * AnalyticsResponse :=
  match get_post d post_id with
  | Some post =>
      if author_id post =? uid then
        match get_post_analytics d post_id uid with
        | Some a => (d, AnOk a)
        | None => metrics_response d (create_or_update_analytics d empty post_id uid)
        end
      else (d, AnNotFound)
  | None => (d, AnNotFound)
  end.

(** [PUT /analytics/posts/{post_id}] *)
Definition update_post_analytics (d : Db) (body : AnalyticsUpdate) (post_id uid : Z)
    : Db * AnalyticsResponse :=
  match get_post d post_id with
  | Some post =>
      if author_id post =? uid then
        metrics_response d (create_or_update_analytics d body post_id uid)
      else (d, AnNotFound)
  | None => (d, AnNotFound)
  end.

End MetricsRoutes.

(** ** Vocabulary of the properties *)

(** [x] is the identifier of a post of [user_id] *)
Definition owned (tbl : list Post) (user_id x : Z) : Prop :=
  exists p, In p tbl /\ id p = x /\ author_id p = user_id.

(** The token failures of [process_scheduled_posts]: no access token;
    an expired token and no refresh token; an expired token whose refresh
    call fails. *)
Definition token_failure (now : Z) (ext : Externals) (u : User) : Prop :=
  truthy (linkedin_access_token u) = false
  \/ (token_expired now u = true /\ truthy (linkedin_refresh_token u) = false)
  \/ (token_expired now u = true /\ truthy (linkedin_refresh_token u) = true
      /\ ext_refresh_access_token ext (get_default (linkedin_refresh_token u) EmptyString)
         = RefreshFails).

Definition is_fetch (e : Event) : bool :=
  match e with EvFetchMetrics _ => true | _ => false end.

(** The number of [get_post_analytics] calls in a trace *)
Definition count_fetch (ev : list Event) : nat := List.length (filter is_fetch ev).

(** [m] only appends to the trace, at most [n] metric fetches. *)
Definition fetch_bounded {A} (n : nat) (m : M A) : Prop :=
  forall s, exists ev, trace (fst (m s)) = trace s ++ ev /\ (count_fetch ev <= n)%nat.

(** The selection policy of the analytics sync, read off its query:
    Published, with an external identifier, and published in the last
    24 hours, or in the last 7 days with a metrics record whose
    [last_synced] is set and at least 24 hours old. *)
Definition sync_policy (now : Z) (ans : list Analytics) (p : Post) : Prop :=
  status p = PUBLISHED /\ linkedin_post_id p <> None /\
  exists pt, published_time p = Some pt /\
    (now - DAY <= pt
     \/ (now - 7 * DAY <= pt /\
         exists a ls, In a ans /\ an_post_id a = id p /\ last_synced a = Some ls
                      /\ ls <= now - DAY)).



(** A float whose sign bit is clear (NaN included). *)
Definition nonneg_float (f : PyFloat.float) : Prop :=
  match f with
  | S754_finite true _ _ | S754_infinity true => False
  | _ => True
  end.

(** [l] is a prefix of [l'] *)
Definition prefix_of (l l' : list Z) : Prop := exists rest, l' = l ++ rest.

(** A post after [apply_schedule] when [sched] names each post at most
    once: Scheduled at its time if named, unchanged otherwise. *)
Definition scheduled_update (sched : list (Z * Z)) (p : Post) : Post :=
  match find (fun pt => fst pt =? id p) sched with
  | Some pt => set_post_schedule (snd pt) p
  | None => p
  end.

(** [m] keeps the relation [I] between the committed state and the
    state of the session objects. *)
Definition preserves {A} (I : Db -> Db -> Prop) (m : M A) : Prop :=
  forall s, I (committed s) (current s) ->
            I (committed (fst (m s))) (current (fst (m s))).

(** A post [p0] of the table became [p] in a publish cycle whose due
    posts have the identifiers [S]: unchanged, or with the same
    identifier, due, and now Published or Failed. *)
Definition post_step (now : Z) (S : list Z) (p0 p : Post) : Prop :=
  p = p0 \/ (id p = id p0 /\ In (id p0) S
             /\ (status p = FAILED
                 \/ (status p = PUBLISHED /\ published_time p = Some now))).

(** The committed and the session posts are both [P0]. *)
Definition same_posts (P0 : list Post) (c d : Db) : Prop := posts c = P0 /\ posts d = P0.

(** The committed and the session posts are both related to [P0] by
    [post_step now S], position by position. *)
Definition posts_stepped (now : Z) (S : list Z) (P0 : list Post) (c d : Db) : Prop :=
  Forall2 (post_step now S) P0 (posts c) /\ Forall2 (post_step now S) P0 (posts d).

(** The number of events of a trace that [f] selects *)
Definition ev_count (f : Event -> bool) (ev : list Event) : nat := List.length (filter f ev).

(** [m] only appends to the trace, at most [n] events selected by [f]. *)
Definition ev_bounded {A} (f : Event -> bool) (n : nat) (m : M A) : Prop :=
  forall s, exists ev, trace (fst (m s)) = trace s ++ ev /\ (ev_count f ev <= n)%nat.

(** A publish call ([create_text_post] or [create_image_post]) for post [x] *)
Definition is_publish_of (x : Z) (e : Event) : bool :=
  match e with EvPublish pid _ => pid =? x | _ => false end.

(** The engagement [likes + comments + shares] of the first metrics record
    of [p] in [ans], when there is one and its columns are set. *)
Definition post_engagement (ans : list Analytics) (p : Post) : option Z :=
  match find (fun a => an_post_id a =? id p) ans with
  | Some pa => match py_add3 (likes pa) (comments pa) (shares pa) with
               | Ok e => Some e
               | Raise _ => None
               end
  | None => None
  end.

(** ** Concrete inputs *)

Module Samples.

(** 2024-01-01T12:00 (a Monday) *)
Definition now_2024 : Z := 738886 * DAY + 12 * HOUR.

Definition post_of (pid uid : Z) : Post :=
  mkPost pid uid "post"%string None DRAFT None None None None.

Definition due_post (pid uid : Z) : Post :=
  mkPost pid uid "post"%string None SCHEDULED (Some now_2024) None None None.

Definition user_with (uid : Z) (access refresh : option string) (expires : option Z) : User :=
  mkUser uid access refresh expires (Some "profile"%string).

Definition ext_with (analytics_fails : bool) : Externals :=
  mkExternals (fun _ => RefreshFails)
    (fun _ _ _ => Some (mkPublishResponse (Some (Some "urn:li:share:1"%string)) None))
    (fun _ => Some (57, 0, 0))
    (fun _ => analytics_fails).

Definition days_config (days : list string) : ScheduleConfig :=
  mkConfig DateMissing DateMissing None (Some days) None None.

Definition range_config (start_date end_date : Z) : ScheduleConfig :=
  mkConfig (DateParsed start_date) (DateParsed end_date) None None None None.

Definition no_config : ScheduleConfig :=
  mkConfig DateMissing DateMissing None None None None.

(** A due post of user 7, whose access token is set and never expires. *)
Definition publish_db : Db :=
  mkDb [due_post 1 7] [user_with 7 (Some "token"%string) None None] [].

(** Published two days before [now_2024], with an external identifier. *)
Definition published_post (pid : Z) : Post :=
  mkPost pid 7 "post"%string None PUBLISHED (Some (now_2024 - 2 * DAY))
    (Some (now_2024 - 2 * DAY)) (Some "urn:li:share:1"%string) None.

(** Post 1 has no metrics record; post 2 has one never synced. *)
Definition sync_db : Db :=
  mkDb [published_post 1; published_post 2]
       [user_with 7 (Some "token"%string) None None]
       [mkAnalytics 2 7 (Some 0) (Some 0) (Some 0) (Some 0) (Some 0) (Some 0) None].

(** A metrics record with no impressions whose rate was set through the
    analytics API ([create_or_update_analytics] accepts any integer). *)
Definition rated_record (rate : Z) : Analytics :=
  mkAnalytics 1 7 (Some 0) (Some 0) (Some 0) (Some 0) (Some 0) (Some rate) None.

(** A metrics record with 100 impressions. *)
Definition record_100 : Analytics :=
  mkAnalytics 1 7 (Some 100) (Some 0) (Some 0) (Some 0) (Some 0) (Some 0) None.

(** The refresh answers a new access token but no [expires_in]. *)
Definition ext_refresh_no_expiry : Externals :=
  mkExternals
    (fun _ => RefreshReturns (mkRefreshResponse (Some (Some "new"%string)) None None))
    (fun _ _ _ => Some (mkPublishResponse (Some (Some "urn:li:share:1"%string)) None))
    (fun _ => Some (57, 0, 0))
    (fun _ => false).

(** Two posts of user 7 published two days before [now_2024], with
    engagements 3 and 5 and no impressions. *)
Definition summary_db : Db :=
  mkDb [published_post 1; published_post 2] [user_with 7 (Some "token"%string) None None]
       [mkAnalytics 1 7 (Some 0) (Some 0) (Some 3) (Some 0) (Some 0) (Some 0) None;
        mkAnalytics 2 7 (Some 0) (Some 0) (Some 2) (Some 2) (Some 1) (Some 0) None].

End Samples.

(** * Properties *)

(** ** Publish worker: due-item selection *)

(** C6: an item is selected for publishing iff it is Scheduled and its
    scheduledTime lies in the window (now - 5min, now + 5min]. *)
Theorem due_posts_window : forall now tbl p,
  In p (due_posts now tbl) <->
  In p tbl /\ status p = SCHEDULED /\
  exists t, scheduled_time p = Some t /\ now - 5 * MINUTE < t /\ t <= now + 5 * MINUTE.
Proof.
  intros now tbl p. unfold due_posts. rewrite filter_In.
  split.
  - intros [Hin Hf]. apply andb_prop in Hf as [Hst Hw].
    destruct (status p); try discriminate.
    destruct (scheduled_time p) as [t|]; [|discriminate].
    apply andb_prop in Hw as [H1 H2]. rewrite Z.leb_le in H1. rewrite Z.ltb_lt in H2.
    split; [exact Hin|]. split; [reflexivity|]. exists t. split; [reflexivity|]. lia.
  - intros [Hin [Hst [t [Ht [H1 H2]]]]]. split; [exact Hin|].
    rewrite Hst, Ht. simpl. apply andb_true_intro.
    split; [apply Z.leb_le | apply Z.ltb_lt]; unfold MINUTE, SECOND in *; lia.
Qed.

(** ** Allocator: request validation *)

Lemma NoDup_map_filter {A B} (g : A -> B) (f : A -> bool) (l : list A) :
  NoDup (map g l) -> NoDup (map g (filter f l)).
Proof.
  induction l as [|a l IH]; simpl; intros H; [constructor|].
  inversion H as [|? ? Hnot Hnd]; subst.
  destruct (f a); simpl; [constructor|]; auto.
  intros Hin. apply Hnot. apply in_map_iff in Hin as [b [Eb Hb]].
  apply filter_In in Hb as [Hb _]. rewrite <- Eb. now apply in_map.
Qed.

Lemma query_posts_incl tbl post_ids user_id :
  incl (map id (query_posts tbl post_ids user_id)) post_ids.
Proof.
  intros x Hx. apply in_map_iff in Hx as [p [<- Hp]].
  unfold query_posts in Hp. apply filter_In in Hp as [_ Hf].
  apply andb_prop in Hf as [Hf _]. apply existsb_exists in Hf as [y [Hy E]].
  apply Z.eqb_eq in E. now rewrite E.
Qed.

Lemma query_posts_owned tbl post_ids user_id x :
  In x (map id (query_posts tbl post_ids user_id)) -> owned tbl user_id x.
Proof.
  intros Hx. apply in_map_iff in Hx as [p [<- Hp]].
  unfold query_posts in Hp. apply filter_In in Hp as [Hin Hf].
  apply andb_prop in Hf as [_ Ha]. apply Z.eqb_eq in Ha.
  exists p. auto.
Qed.

(** A request is accepted only when the owned posts it matches are exactly
    as many as the identifiers it lists. *)
Lemma bulk_schedule_posts_none tbl post_ids schedule_type cfg user_id now :
  List.length (query_posts tbl post_ids user_id) <> List.length post_ids ->
  bulk_schedule_posts tbl post_ids schedule_type cfg user_id now = (tbl, NoneResult).
Proof.
  intros H. unfold bulk_schedule_posts.
  apply Nat.eqb_neq in H. rewrite H, orb_true_r. reflexivity.
Qed.

(** C10: a request whose identifier list has a duplicate, or names a post
    the requesting account does not own, is rejected as a whole: the caller
    gets a 400 and the posts table is unchanged. *)
Theorem bulk_schedule_rejects_duplicates_or_foreign :
  forall tbl post_ids schedule_type cfg user_id now,
  NoDup (map id tbl) ->
  (~ NoDup post_ids \/ exists x, In x post_ids /\ ~ owned tbl user_id x) ->
  bulk_schedule_endpoint tbl post_ids schedule_type cfg user_id now = (tbl, Http400).
Proof.
  intros tbl post_ids schedule_type cfg user_id now Hkey Hbad.
  unfold bulk_schedule_endpoint.
  rewrite (bulk_schedule_posts_none tbl post_ids schedule_type cfg user_id now);
    [reflexivity|].
  intros Hlen.
  set (q := map id (query_posts tbl post_ids user_id)).
  assert (Hq : NoDup q) by (apply NoDup_map_filter; exact Hkey).
  assert (Hql : List.length q = List.length post_ids) by (unfold q; now rewrite length_map).
  assert (Hincl : incl post_ids q).
  { apply (NoDup_length_incl Hq); [lia | apply query_posts_incl]. }
  destruct Hbad as [Hdup | [x [Hx Hnot]]].
  - apply Hdup. apply (NoDup_incl_NoDup Hq); [lia | apply query_posts_incl].
  - apply Hnot. apply (query_posts_owned tbl post_ids). now apply Hincl.
Qed.

(** Witness for C10: the request [1; 1] on two owned posts. *)
Lemma bulk_schedule_rejects_duplicates_or_foreign_witness :
  NoDup (map id [Samples.post_of 1 7; Samples.post_of 2 7]) /\
  ~ NoDup [1; 1] /\
  bulk_schedule_endpoint [Samples.post_of 1 7; Samples.post_of 2 7] [1; 1]
    "optimal_times"%string Samples.no_config 7 Samples.now_2024
  = ([Samples.post_of 1 7; Samples.post_of 2 7], Http400).
Proof.
  assert (Hk : NoDup (map id [Samples.post_of 1 7; Samples.post_of 2 7])).
  { simpl. constructor; [simpl; intros [H|H]; [discriminate|contradiction]|].
    constructor; [simpl; tauto|constructor]. }
  assert (Hd : ~ NoDup [1; 1]).
  { intros H. inversion H as [|? ? Hn _]. apply Hn. simpl. now left. }
  split; [exact Hk|]. split; [exact Hd|].
  apply bulk_schedule_rejects_duplicates_or_foreign; [exact Hk | now left].
Defined.

(** ** Publish worker: token failures *)

(** C5: when the owning account has no access token, or an expired token
    and no refresh token, or an expired token whose refresh call fails,
    the item becomes Failed (committed) and no publish call is made; the
    only external call is the refresh attempt. *)
Theorem process_post_token_failure : forall now ext p s u,
  find (fun v => user_id v =? author_id p) (users (current s)) = Some u ->
  token_failure now ext u ->
  let d := flush (update_post_in (id p) (with_status FAILED) (current s)) in
  exists ev, (ev = [] \/ ev = [EvRefresh (user_id u)]) /\
  process_post now ext p s
  = (mkSession d d (trace s ++ ev ++ [EvStatus (id p) FAILED; EvCommit]), Ok tt).
Proof.
  intros now ext p s u Hu Hfail d.
  unfold process_post, try_except, bind, get_user. rewrite Hu.
  destruct Hfail as [Hno | [[Hexp Hnr] | [Hexp [Hr Href]]]].
  - rewrite Hno. exists []. split; [now left|].
    simpl. now rewrite <- app_assoc.
  - destruct (truthy (linkedin_access_token u)); [|exists []; split; [now left|];
      simpl; now rewrite <- app_assoc].
    rewrite Hexp, Hnr. exists []. split; [now left|].
    simpl. now rewrite <- app_assoc.
  - destruct (truthy (linkedin_access_token u)); [|exists []; split; [now left|];
      simpl; now rewrite <- app_assoc].
    rewrite Hexp, Hr. simpl. unfold refresh_token, emit. simpl. rewrite Href.
    exists [EvRefresh (user_id u)]. split; [now right|].
    simpl. now rewrite <- !app_assoc.
Qed.

(** Witness for C5: an account without access token. *)
Lemma process_post_token_failure_witness :
  find (fun v => user_id v =? author_id (Samples.due_post 1 7))
    (users (current (init_session (mkDb [Samples.due_post 1 7]
                                         [Samples.user_with 7 None None None] []))))
  = Some (Samples.user_with 7 None None None) /\
  token_failure Samples.now_2024 (Samples.ext_with false) (Samples.user_with 7 None None None) /\
  let s := init_session (mkDb [Samples.due_post 1 7] [Samples.user_with 7 None None None] []) in
  let d := flush (update_post_in 1 (with_status FAILED) (current s)) in
  exists ev, (ev = [] \/ ev = [EvRefresh 7]) /\
  process_post Samples.now_2024 (Samples.ext_with false) (Samples.due_post 1 7) s
  = (mkSession d d (trace s ++ ev ++ [EvStatus 1 FAILED; EvCommit]), Ok tt).
Proof.
  split; [reflexivity|]. split; [left; reflexivity|].
  exact (process_post_token_failure Samples.now_2024 (Samples.ext_with false)
           (Samples.due_post 1 7)
           (init_session (mkDb [Samples.due_post 1 7] [Samples.user_with 7 None None None] []))
           (Samples.user_with 7 None None None) eq_refl (or_introl eq_refl)).
Defined.

(** ** Publish worker: Published is not terminal in [process_scheduled_posts] *)

(** C1: a due Scheduled post whose publish call succeeds is marked
    Published and committed; when the analytics lookup that follows raises
    a database error, the handler of the same iteration marks it Failed and
    commits again. *)
Theorem publish_cycle_published_then_failed :
  run_publish_cycle Samples.now_2024 (Samples.ext_with true) Samples.publish_db
  = (mkDb [with_status FAILED
             (mark_published Samples.now_2024
                (mkPublishResponse (Some (Some "urn:li:share:1"%string)) None)
                (Samples.due_post 1 7))]
          [Samples.user_with 7 (Some "token"%string) None None] [],
     [EvPublish 1 false; EvStatus 1 PUBLISHED; EvCommit; EvStatus 1 FAILED; EvCommit]).
Proof. vm_compute. reflexivity. Qed.

(** ** Analytics sync worker: the external-call budget *)

Section FetchBudget.

Lemma count_fetch_app a b : count_fetch (a ++ b) = (count_fetch a + count_fetch b)%nat.
Proof. unfold count_fetch. now rewrite filter_app, length_app. Qed.

Lemma fb_nil {A} n (m : M A) :
  (forall s, trace (fst (m s)) = trace s) -> fetch_bounded n m.
Proof. intros H s. exists []. rewrite H, app_nil_r. split; [reflexivity|]. apply Nat.le_0_l. Qed.

Lemma fb_ret {A} n (a : A) : fetch_bounded n (ret a).
Proof. now apply fb_nil. Qed.

Lemma fb_raise {A} n e : fetch_bounded n (@raise A e).
Proof. now apply fb_nil. Qed.

Lemma fb_modify n f : fetch_bounded n (modify_current f).
Proof. now apply fb_nil. Qed.

Lemma fb_get_current n : fetch_bounded n get_current.
Proof. now apply fb_nil. Qed.

Lemma fb_get_user n uid : fetch_bounded n (get_user uid).
Proof. now apply fb_nil. Qed.

Lemma fb_get_analytics n ext pid : fetch_bounded n (get_analytics ext pid).
Proof.
  apply fb_nil. intros s. unfold get_analytics.
  now destruct (ext_analytics_query_fails ext pid).
Qed.

Lemma fb_commit n : fetch_bounded n commit.
Proof. intros s. exists [EvCommit]. split; [reflexivity|]. unfold count_fetch; simpl; lia. Qed.

Lemma fb_emit_other n e : is_fetch e = false -> fetch_bounded n (emit e).
Proof.
  intros He s. exists [e]. split; [reflexivity|].
  unfold count_fetch. simpl. rewrite He. unfold count_fetch; simpl; lia.
Qed.

Lemma fb_emit_fetch pid : fetch_bounded 1 (emit (EvFetchMetrics pid)).
Proof. intros s. exists [EvFetchMetrics pid]. split; [reflexivity|]. unfold count_fetch; simpl; lia. Qed.

Lemma fb_mono {A} n n' (m : M A) : (n <= n')%nat -> fetch_bounded n m -> fetch_bounded n' m.
Proof. intros Hle H s. destruct (H s) as [ev [T C]]. exists ev. split; [exact T|lia]. Qed.

Lemma fb_bind {A B} n1 n2 (m : M A) (k : A -> M B) :
  fetch_bounded n1 m -> (forall a, fetch_bounded n2 (k a)) ->
  fetch_bounded (n1 + n2) (bind m k).
Proof.
  intros H1 H2 s. unfold bind.
  destruct (H1 s) as [ev1 [T1 C1]]. destruct (m s) as [s' r]. simpl in T1.
  destruct r as [a|e].
  - destruct (H2 a s') as [ev2 [T2 C2]]. exists (ev1 ++ ev2).
    rewrite T2, T1, app_assoc. split; [reflexivity|].
    rewrite count_fetch_app. lia.
  - exists ev1. simpl. split; [exact T1|lia].
Qed.

Lemma fb_bind0 {A B} n (m : M A) (k : A -> M B) :
  fetch_bounded 0 m -> (forall a, fetch_bounded n (k a)) -> fetch_bounded n (bind m k).
Proof. intros H1 H2. exact (fb_bind 0 n m k H1 H2). Qed.

Lemma fb_try {A} n1 n2 (m : M A) (h : PyExc -> M A) :
  fetch_bounded n1 m -> (forall e, fetch_bounded n2 (h e)) ->
  fetch_bounded (n1 + n2) (try_except m h).
Proof.
  intros H1 H2 s. unfold try_except.
  destruct (H1 s) as [ev1 [T1 C1]]. destruct (m s) as [s' r]. simpl in T1.
  destruct r as [a|e].
  - exists ev1. simpl. split; [exact T1|lia].
  - destruct (H2 e s') as [ev2 [T2 C2]]. exists (ev1 ++ ev2).
    rewrite T2, T1, app_assoc. split; [reflexivity|].
    rewrite count_fetch_app. lia.
Qed.

Lemma fb_try0 {A} n (m : M A) (h : PyExc -> M A) :
  fetch_bounded n m -> (forall e, fetch_bounded 0 (h e)) -> fetch_bounded n (try_except m h).
Proof.
  intros H1 H2. rewrite <- (Nat.add_0_r n). exact (fb_try n 0 m h H1 H2).
Qed.

Ltac fb :=
  repeat first
    [ progress cbv beta
    | apply fb_ret | apply fb_raise | apply fb_modify | apply fb_commit
    | apply fb_get_user | apply fb_get_analytics | apply fb_get_current
    | apply fb_emit_other; reflexivity
    | apply fb_bind0; [ | intro ]
    | apply fb_try0; [ | intro ]
    | match goal with
      | |- fetch_bounded _ (match ?x with _ => _ end) => destruct x
      end ].

Lemma fb_refresh_token n now ext u rt : fetch_bounded n (refresh_token now ext u rt).
Proof.
  unfold refresh_token. fb.
Qed.

Lemma fb_sync_one now ext uid p : fetch_bounded 1 (sync_one now ext uid p).
Proof.
  unfold sync_one. apply (fb_mono (1 + 0)); [lia|].
  apply fb_bind; [apply fb_emit_fetch | intros _].
  fb.
Qed.

Lemma fb_sync_each now ext uid ps : fetch_bounded (List.length ps) (sync_each now ext uid ps).
Proof.
  induction ps as [|p ps IH]; simpl; [apply fb_ret|].
  apply (fb_bind 1 (List.length ps)); [|intros _; exact IH].
  apply fb_try0; [apply fb_sync_one | intros; apply fb_ret].
Qed.

Lemma fb_sync_group now ext uid ps : fetch_bounded (List.length ps) (sync_group now ext uid ps).
Proof.
  unfold sync_group. apply fb_try0; [|intros; apply fb_ret].
  apply fb_bind0; [apply fb_get_user|intros uo].
  destruct uo as [u|]; [|apply fb_ret].
  destruct (negb (truthy (linkedin_access_token u))); [apply fb_ret|].
  apply fb_bind0.
  - destruct (token_expired now u); [|apply fb_ret].
    destruct (negb (truthy (linkedin_refresh_token u))); [apply fb_ret|].
    apply fb_try0; [|intros; apply fb_ret].
    apply fb_bind0; [apply fb_refresh_token|intros; apply fb_ret].
  - intros proceed. destruct proceed; [apply fb_sync_each|apply fb_ret].
Qed.

Definition group_total (g : list (Z * list Post)) : nat :=
  fold_right (fun kv acc => (List.length (snd kv) + acc)%nat) 0%nat g.

Lemma fb_sync_groups now ext g : fetch_bounded (group_total g) (sync_groups now ext g).
Proof.
  induction g as [|[uid ps] g IH]; simpl; [apply fb_ret|].
  apply fb_bind; [apply fb_sync_group|intros _; exact IH].
Qed.

Lemma group_total_add uid p g : group_total (add_to_group uid p g) = S (group_total g).
Proof.
  induction g as [|[k ps] g IH]; simpl; [reflexivity|].
  destruct (k =? uid); simpl.
  - rewrite length_app. simpl. lia.
  - rewrite IH. lia.
Qed.

Lemma group_total_fold ps g :
  group_total (fold_left (fun g p => add_to_group (author_id p) p g) ps g)
  = (List.length ps + group_total g)%nat.
Proof.
  revert g. induction ps as [|p ps IH]; intros g; simpl; [reflexivity|].
  rewrite IH, group_total_add. lia.
Qed.

Lemma group_by_user_total ps : group_total (group_by_user ps) = List.length ps.
Proof. unfold group_by_user. rewrite group_total_fold. simpl. lia. Qed.

End FetchBudget.

(** C8: one analytics-sync cycle calls [get_post_analytics] at most 20
    times, all accounts together. *)
Theorem sync_cycle_fetch_budget : forall now ext db,
  (count_fetch (snd (run_sync_cycle now ext db)) <= 20)%nat.
Proof.
  intros now ext db.
  assert (H : fetch_bounded 20 (sync_post_analytics now ext)).
  { unfold sync_post_analytics. apply fb_bind0; [apply fb_get_current|intros d].
    apply (fb_mono (group_total (group_by_user (posts_to_sync now d)))).
    - rewrite group_by_user_total. unfold posts_to_sync. apply firstn_le_length.
    - apply fb_sync_groups. }
  destruct (H (init_session db)) as [ev [T C]].
  unfold run_sync_cycle. destruct (sync_post_analytics now ext (init_session db)) as [s r].
  simpl in *. rewrite T. exact C.
Qed.

(** ** Analytics sync worker: selection *)

Lemma sync_eligible_spec now ans p :
  sync_eligible now ans p = true <-> sync_policy now ans p.
Proof.
  unfold sync_eligible, sync_policy, opt_ge, opt_le.
  rewrite !andb_true_iff, orb_true_iff, andb_true_iff, existsb_exists.
  destruct (status p) eqn:Hs; simpl;
    try (split; [intros [[H _] _]; discriminate | intros [H _]; discriminate]).
  destruct (linkedin_post_id p) as [x|] eqn:Hl; simpl;
    [|split; [intros [[_ H] _]; discriminate | intros [_ [H _]]; now contradiction H]].
  destruct (published_time p) as [pt|] eqn:Hp.
  - split.
    + intros [_ Hor]. split; [reflexivity|]. split; [discriminate|]. exists pt.
      split; [reflexivity|].
      destruct Hor as [H | [[a [Ha Hb]] Hw]].
      * left. apply Z.leb_le in H. exact H.
      * right. apply Z.leb_le in Hw. split; [exact Hw|].
        apply andb_true_iff in Hb as [E Hls]. apply Z.eqb_eq in E.
        destruct (last_synced a) as [ls|] eqn:El; [|discriminate].
        apply Z.leb_le in Hls. exists a, ls. auto.
    + intros [_ [_ [pt' [E Hor]]]]. injection E as <-.
      split; [split; reflexivity|].
      destruct Hor as [H | [Hw [a [ls [Ha [Ea [El Hls]]]]]]].
      * left. now apply Z.leb_le.
      * right. split; [|now apply Z.leb_le].
        exists a. split; [exact Ha|]. rewrite Ea, Z.eqb_refl, El. simpl.
        now apply Z.leb_le.
  - split.
    + intros [_ [H | [_ H]]]; discriminate.
    + intros [_ [_ [pt' [E _]]]]. discriminate.
Qed.

(** C7 (as the code has it): the cycle takes the first 20 items, in the
    order the query returns them, among those satisfying [sync_policy]:
    Published with an external identifier, published in the last
    24 hours, or in the last 7 days with a metrics record whose
    [last_synced] is set and at least 24 hours old. *)
Theorem sync_selection : forall now d,
  posts_to_sync now d = firstn 20 (filter (sync_eligible now (analytics d)) (posts d)) /\
  (forall p, sync_eligible now (analytics d) p = true <-> sync_policy now (analytics d) p).
Proof.
  intros now d. split; [reflexivity|]. intros p. apply sync_eligible_spec.
Qed.

(** C7 fails: two posts published two days ago with an external
    identifier, one without metrics record and one whose [last_synced] is
    unset, are not selected. *)
Lemma sync_selection_counterexample :
  In (Samples.published_post 1) (posts Samples.sync_db) /\
  In (Samples.published_post 2) (posts Samples.sync_db) /\
  status (Samples.published_post 1) = PUBLISHED /\
  linkedin_post_id (Samples.published_post 1) <> None /\
  published_time (Samples.published_post 1) = Some (Samples.now_2024 - 2 * DAY) /\
  (forall a, In a (analytics Samples.sync_db) -> an_post_id a <> 1) /\
  (forall a, In a (analytics Samples.sync_db) -> an_post_id a = 2 -> last_synced a = None) /\
  posts_to_sync Samples.now_2024 Samples.sync_db = [].
Proof.
  split; [simpl; auto|]. split; [simpl; auto|].
  split; [reflexivity|]. split; [discriminate|]. split; [reflexivity|].
  split; [intros a [<-|[]]; discriminate|].
  split; [intros a [<-|[]] _; reflexivity|].
  vm_compute. reflexivity.
Qed.

(** ** Analytics sync worker: engagement rate *)

Lemma round_aux_nonneg m e l :
  nonneg_float (binary_round_aux PyFloat.prec PyFloat.emax false m e l).
Proof.
  unfold binary_round_aux.
  repeat match goal with
         | |- context [match ?x with (_, _) => _ end] => destruct x
         end.
  destruct (shr_m _); try exact I. destruct (_ <=? _); exact I.
Qed.

Lemma exact_nonneg_sign a :
  0 <= a -> PyFloat.exact a = S754_zero false \/ exists m, PyFloat.exact a = S754_finite false m 0.
Proof. intros H. destruct a; simpl; eauto. lia. Qed.

Lemma int_truediv_nonneg a b q :
  0 <= a -> 0 < b -> PyFloat.int_truediv a b = Ok q -> nonneg_float q.
Proof.
  intros Ha Hb E. unfold PyFloat.int_truediv in E.
  destruct b as [|pb|pb]; try lia. simpl in E.
  destruct (exact_nonneg_sign a Ha) as [Ea | [m Ea]]; rewrite Ea in E; simpl in E.
  - injection E as <-. exact I.
  - destruct (SFdiv_core_binary _ _ _ _ _ _) as [[mz ez] lz].
    pose proof (round_aux_nonneg mz ez lz) as N.
    destruct (binary_round_aux _ _ _ _ _ _); try discriminate;
      injection E as <-; exact N.
Qed.

Lemma of_int_10000 : PyFloat.of_int 10000 = S754_finite false 5497558138880000 (-39).
Proof. vm_compute. reflexivity. Qed.

Lemma mul_10000_nonneg q : nonneg_float q -> nonneg_float (PyFloat.mul_int q 10000).
Proof.
  intros N. unfold PyFloat.mul_int. rewrite of_int_10000.
  destruct q as [[]|[]| |[] mq eq]; simpl in *; try contradiction; try exact I.
  apply round_aux_nonneg.
Qed.

Lemma trunc_nonneg f r : nonneg_float f -> PyFloat.trunc f = Ok r -> 0 <= r.
Proof.
  intros N E. destruct f as [s|s| |s m e]; simpl in E; try discriminate.
  - injection E as <-. lia.
  - destruct s; [contradiction|]. injection E as <-.
    destruct (0 <=? e); [apply Z.shiftl_nonneg | apply Z.shiftr_nonneg]; lia.
Qed.

Lemma py_engagement_rate_nonneg total imp r :
  0 <= total -> 0 < imp -> py_engagement_rate total imp = Ok r -> 0 <= r.
Proof.
  intros Ht Hi E. unfold py_engagement_rate in E.
  destruct (PyFloat.int_truediv total imp) as [q|e] eqn:Eq; [|discriminate].
  simpl in E. eapply trunc_nonneg; [|exact E].
  apply mul_10000_nonneg. eapply int_truediv_nonneg; eauto.
Qed.

(** C9 (as the code has it): for a record with [imp] impressions, when
    [imp <= 0] no division happens and the stored rate is left as it
    was; when [imp > 0] the rate becomes
    [int((likes + comments + shares) / imp * 10000)] evaluated in binary64
    floating point, which is non-negative when the counts sum to a
    non-negative number. *)
Theorem update_metrics_engagement now a lk cm sh imp :
  impressions a = Some imp ->
  let (a', err) := update_metrics now a lk cm sh in
  (imp <= 0 -> err = None /\ engagement_rate a' = engagement_rate a) /\
  (0 < imp ->
   match py_engagement_rate (lk + cm + sh) imp with
   | Ok r => err = None /\ engagement_rate a' = Some r /\ (0 <= lk + cm + sh -> 0 <= r)
   | Raise e => err = Some e /\ engagement_rate a' = engagement_rate a
   end).
Proof.
  intros Hi. unfold update_metrics. simpl. rewrite Hi.
  destruct (0 <? imp) eqn:Lt.
  - apply Z.ltb_lt in Lt.
    destruct (py_engagement_rate (lk + cm + sh) imp) as [r|e] eqn:Er.
    + split; [lia|]. intros _. repeat split.
      intros Ht. eapply py_engagement_rate_nonneg; eauto.
    + split; [lia|]. intros _. split; reflexivity.
  - apply Z.ltb_ge in Lt. split; [intros _; split; reflexivity | lia].
Qed.

Lemma update_metrics_engagement_witness :
  impressions Samples.record_100 = Some 100 /\
  (let (a', err) := update_metrics Samples.now_2024 Samples.record_100 57 0 0 in
   (100 <= 0 -> err = None /\ engagement_rate a' = engagement_rate Samples.record_100) /\
   (0 < 100 ->
    match py_engagement_rate (57 + 0 + 0) 100 with
    | Ok r => err = None /\ engagement_rate a' = Some r /\ (0 <= 57 + 0 + 0 -> 0 <= r)
    | Raise e => err = Some e /\ engagement_rate a' = engagement_rate Samples.record_100
    end)).
Proof.
  split; [reflexivity|].
  apply (update_metrics_engagement Samples.now_2024 Samples.record_100 57 0 0 100).
  reflexivity.
Defined.

(** C9 fails: with no impressions a stored rate of -5 is kept (neither
    non-negative nor 0), and with 100 impressions and 57 likes the stored
    rate is 5699, not the exact truncation 57 * 10000 / 100 = 5700. *)
Lemma update_metrics_engagement_counterexample :
  engagement_rate (fst (update_metrics Samples.now_2024 (Samples.rated_record (-5)) 0 0 0))
    = Some (-5) /\
  snd (update_metrics Samples.now_2024 (Samples.rated_record (-5)) 0 0 0) = None /\
  engagement_rate (fst (update_metrics Samples.now_2024 Samples.record_100 57 0 0))
    = Some 5699 /\
  (57 + 0 + 0) * 10000 / 100 = 5700.
Proof. vm_compute. repeat split. Qed.

(** ** Allocator: timestamps after [now] *)

Lemma bind_ok {A B} (c : py A) (k : A -> py B) b :
  py_bind c k = Ok b -> exists a, c = Ok a /\ k a = Ok b.
Proof. destruct c; simpl; [eauto | discriminate]. Qed.

Ltac inv_bind H :=
  repeat match type of H with
         | py_bind _ _ = Ok _ =>
             let a := fresh "a" in let Ea := fresh "Ea" in
             apply bind_ok in H; destruct H as [a [Ea H]]
         end.

Lemma day_candidates_after now d slots l :
  day_candidates now d slots = Ok l -> Forall (fun t => now < t) l.
Proof.
  revert l. induction slots as [|slot slots IH]; simpl; intros l E.
  - injection E as <-. constructor.
  - inv_bind E. injection E as <-.
    destruct (now <? a0) eqn:L.
    + constructor; [now apply Z.ltb_lt | now apply IH].
    + now apply IH.
Qed.

Lemma possible_dates_loop_after fuel now d end_date wds slots l :
  possible_dates_loop fuel now d end_date wds slots = Ok l -> Forall (fun t => now < t) l.
Proof.
  revert d l. induction fuel as [|fuel IH]; simpl; intros d l E.
  - injection E as <-. constructor.
  - destruct (end_date <? d); [injection E as <-; constructor|].
    inv_bind E. injection E as <-. apply Forall_app. split.
    + destruct (existsb _ _); [eapply day_candidates_after; eauto|].
      injection Ea as <-. constructor.
    + eapply IH; eauto.
Qed.

Lemma assign_dates_after now ps l :
  Forall (fun t => now < t) l -> Forall (fun pt => now < snd pt) (assign_dates ps l).
Proof.
  revert l. induction ps as [|p ps IH]; intros [|t l] H; simpl; try constructor.
  - now inversion H.
  - apply IH. now inversion H.
Qed.

Lemma optimal_hours_loop_after now d hours rem r :
  optimal_hours_loop now d hours rem = Ok r -> Forall (fun pt => now < snd pt) (fst r).
Proof.
  revert rem r. induction hours as [|h hs IH]; simpl; intros rem r E.
  - injection E as <-. constructor.
  - destruct rem as [|p rest]; [injection E as <-; constructor|].
    inv_bind E. destruct (now <? a) eqn:L.
    + inv_bind E. injection E as <-. simpl.
      constructor; [now apply Z.ltb_lt | eapply IH; eauto].
    + eapply IH; eauto.
Qed.

Lemma optimal_days_loop_after days now d rem l :
  optimal_days_loop days now d rem = Ok l -> Forall (fun pt => now < snd pt) l.
Proof.
  revert d rem l. induction days as [|days IH]; intros d rem l E;
    cbn [optimal_days_loop] in E.
  - injection E as <-. constructor.
  - inv_bind E. apply optimal_hours_loop_after in Ea.
    destruct (snd a) as [|p ps].
    + now injection E as <-.
    + inv_bind E. injection E as <-. apply Forall_app. split; [exact Ea | eapply IH; eauto].
Qed.

(** C2 (as the code has it): for the specific-days and optimal-times
    strategies, every timestamp of a returned schedule is strictly after
    [now]; the evenly-spaced strategy takes its days from the caller's
    [start_date] and [end_date] and does not compare them with [now]. *)
Theorem bulk_schedule_future tbl post_ids ty cfg user_id now tbl' sched :
  (ty = "specific_days"%string \/ ty = "optimal_times"%string) ->
  bulk_schedule_posts tbl post_ids ty cfg user_id now = (tbl', Preview sched) ->
  Forall (fun pt => now < snd pt) sched.
Proof.
  intros Hty E. unfold bulk_schedule_posts in E.
  destruct (_ || _); [discriminate|].
  destruct Hty as [-> | ->]; simpl in E.
  - destruct (specific_days now _ cfg) as [s|e] eqn:Es; [|discriminate].
    injection E as _ <-. unfold specific_days in Es. inv_bind Es.
    injection Es as <-. apply assign_dates_after.
    eapply possible_dates_loop_after; eauto.
  - destruct (optimal_times now _ cfg) as [s|e] eqn:Es; [|discriminate].
    injection E as _ <-. eapply optimal_days_loop_after; eauto.
Qed.

Lemma bulk_schedule_future_witness :
  Forall (fun pt => Samples.now_2024 < snd pt)
    (match snd (bulk_schedule_posts [Samples.post_of 1 7; Samples.post_of 2 7] [1; 2]
                  "optimal_times" Samples.no_config 7 Samples.now_2024) with
     | Preview s => s
     | _ => []
     end).
Proof.
  apply (bulk_schedule_future [Samples.post_of 1 7; Samples.post_of 2 7] [1; 2]
           "optimal_times" Samples.no_config 7 Samples.now_2024
           (fst (bulk_schedule_posts [Samples.post_of 1 7; Samples.post_of 2 7] [1; 2]
                   "optimal_times" Samples.no_config 7 Samples.now_2024))).
  - right. reflexivity.
  - vm_compute. reflexivity.
Defined.

(** C2 fails: an evenly-spaced request over 2020-01-01 .. 2020-01-02 made
    on 2024-01-01 schedules the post at 2020-01-01 09:00, before [now]. *)
Lemma bulk_schedule_future_counterexample :
  snd (bulk_schedule_posts [Samples.post_of 1 7] [1] "evenly_spaced"
         (Samples.range_config (737425 * DAY) (737426 * DAY)) 7 Samples.now_2024)
    = Preview [(1, 737425 * DAY + 9 * HOUR)] /\
  737425 * DAY + 9 * HOUR < Samples.now_2024.
Proof. vm_compute. split; reflexivity. Qed.

(** ** Allocator: unknown strategy tags and weekday names *)









(** ** Allocator: order of the schedule *)

Lemma prefix_of_nil l : prefix_of [] l.
Proof. exists l. reflexivity. Qed.

Lemma prefix_of_cons x l l' : prefix_of l l' -> prefix_of (x :: l) (x :: l').
Proof. intros [rest ->]. exists rest. reflexivity. Qed.

Lemma evenly_fill_prefix ps d end_date slots i l :
  evenly_fill ps d end_date slots i = Ok l -> prefix_of (map fst l) (map id ps).
Proof.
  revert d i l. induction ps as [|p ps IH]; simpl; intros d i l E.
  - injection E as <-. apply prefix_of_nil.
  - destruct (end_date <? d); [injection E as <-; apply prefix_of_nil|].
    inv_bind E. injection E as <-. simpl. apply prefix_of_cons.
    destruct (_ <=? _)%nat; [inv_bind Ea2|]; eapply IH; eauto.
Qed.

Lemma evenly_spread_prefix ps i d dpp slots l :
  evenly_spread ps i d dpp slots = Ok l -> prefix_of (map fst l) (map id ps).
Proof.
  revert i l. induction ps as [|p ps IH]; simpl; intros i l E.
  - injection E as <-. apply prefix_of_nil.
  - inv_bind E. injection E as <-. simpl. apply prefix_of_cons. eapply IH; eauto.
Qed.

Lemma evenly_spaced_prefix ps cfg l :
  evenly_spaced ps cfg = Ok l -> prefix_of (map fst l) (map id ps).
Proof.
  unfold evenly_spaced. intros E. inv_bind E.
  destruct (PyFloat.le_int _ _).
  - eapply evenly_fill_prefix; eauto.
  - inv_bind E. eapply evenly_spread_prefix; eauto.
Qed.

Lemma assign_dates_prefix ps l : prefix_of (map fst (assign_dates ps l)) (map id ps).
Proof.
  revert l. induction ps as [|p ps IH]; intros [|t l]; simpl;
    try apply prefix_of_nil. apply prefix_of_cons, IH.
Qed.

Lemma specific_days_prefix now ps cfg l :
  specific_days now ps cfg = Ok l -> prefix_of (map fst l) (map id ps).
Proof.
  unfold specific_days. intros E. inv_bind E. injection E as <-. apply assign_dates_prefix.
Qed.

Lemma optimal_hours_loop_prefix now d hours rem r :
  optimal_hours_loop now d hours rem = Ok r -> map id rem = map fst (fst r) ++ map id (snd r).
Proof.
  revert rem r. induction hours as [|h hs IH]; simpl; intros rem r E.
  - injection E as <-. reflexivity.
  - destruct rem as [|p rest]; [injection E as <-; reflexivity|].
    inv_bind E. destruct (now <? a).
    + inv_bind E. injection E as <-. simpl. f_equal. eapply IH; eauto.
    + eapply IH; eauto.
Qed.

Lemma optimal_days_loop_prefix days now d rem l :
  optimal_days_loop days now d rem = Ok l -> prefix_of (map fst l) (map id rem).
Proof.
  revert d rem l. induction days as [|days IH]; intros d rem l E;
    cbn [optimal_days_loop] in E.
  - injection E as <-. apply prefix_of_nil.
  - inv_bind E. apply optimal_hours_loop_prefix in Ea. rewrite Ea.
    destruct (snd a) as [|p ps] eqn:Es.
    + injection E as <-. exists []. reflexivity.
    + inv_bind E. injection E as <-.
      match goal with
      | H : optimal_days_loop _ _ _ _ = Ok _ |- _ => destruct (IH _ _ _ H) as [rest Er]
      end.
      exists rest.
      rewrite map_app, <- app_assoc, <- Er. reflexivity.
Qed.

(** C4 (as the code has it): the identifiers of a returned schedule are,
    in order, a prefix of the requested posts in the order the database
    query returns them, whatever the order of the caller's list. *)
Theorem bulk_schedule_query_order tbl post_ids ty cfg user_id now tbl' sched :
  bulk_schedule_posts tbl post_ids ty cfg user_id now = (tbl', Preview sched) ->
  exists rest, map id (query_posts tbl post_ids user_id) = map fst sched ++ rest.
Proof.
  intros E. unfold bulk_schedule_posts in E.
  destruct (_ || _); [discriminate|].
  change (prefix_of (map fst sched) (map id (query_posts tbl post_ids user_id))).
  destruct (String.eqb ty "evenly_spaced");
    [|destruct (String.eqb ty "specific_days");
      [|destruct (String.eqb ty "optimal_times")]].
  - destruct (evenly_spaced _ cfg) eqn:Es; [|discriminate].
    injection E as _ <-. eapply evenly_spaced_prefix; eauto.
  - destruct (specific_days now _ cfg) eqn:Es; [|discriminate].
    injection E as _ <-. eapply specific_days_prefix; eauto.
  - destruct (optimal_times now _ cfg) eqn:Es; [|discriminate].
    injection E as _ <-. eapply optimal_days_loop_prefix; eauto.
  - injection E as _ <-. apply prefix_of_nil.
Qed.

Lemma bulk_schedule_query_order_witness :
  exists rest,
    map id (query_posts [Samples.post_of 1 7; Samples.post_of 2 7] [2; 1] 7) =
    map fst (match snd (bulk_schedule_posts [Samples.post_of 1 7; Samples.post_of 2 7] [2; 1]
                          "optimal_times" Samples.no_config 7 Samples.now_2024) with
             | Preview s => s
             | _ => []
             end) ++ rest.
Proof.
  apply (bulk_schedule_query_order [Samples.post_of 1 7; Samples.post_of 2 7] [2; 1]
           "optimal_times" Samples.no_config 7 Samples.now_2024
           (fst (bulk_schedule_posts [Samples.post_of 1 7; Samples.post_of 2 7] [2; 1]
                   "optimal_times" Samples.no_config 7 Samples.now_2024))).
  vm_compute. reflexivity.
Defined.

(** C4 fails: for the identifiers [2; 1] the first pair of the schedule
    names post 1, the first post of the table. *)
Lemma bulk_schedule_query_order_counterexample :
  snd (bulk_schedule_posts [Samples.post_of 1 7; Samples.post_of 2 7] [2; 1]
         "optimal_times" Samples.no_config 7 Samples.now_2024)
    = Preview [(1, 738886 * DAY + 17 * HOUR); (2, 738886 * DAY + 20 * HOUR)].
Proof. vm_compute. reflexivity. Qed.

(** * Further properties of the code *)

(** ** Allocator: effect on the posts table *)

Lemma find_fst_none {B} (x : Z) (l : list (Z * B)) :
  ~ In x (map fst l) -> find (fun pt => fst pt =? x) l = None.
Proof.
  induction l as [|[k v] l IH]; simpl; intros H; [reflexivity|].
  destruct (Z.eqb_spec k x); [subst; tauto|]. apply IH. tauto.
Qed.

Lemma apply_schedule_spec tbl sched :
  NoDup (map fst sched) -> apply_schedule tbl sched = map (scheduled_update sched) tbl.
Proof.
  revert tbl. induction sched as [|[k t] rest IH]; intros tbl Hnd.
  - unfold apply_schedule, scheduled_update. simpl.
    induction tbl as [|p tbl IHt]; simpl; [reflexivity|]. now rewrite <- IHt.
  - inversion Hnd as [|? ? Hnot Hnd']; subst. unfold apply_schedule. simpl.
    fold (apply_schedule (map (fun p => if id p =? k then set_post_schedule t p else p) tbl) rest).
    rewrite IH by exact Hnd'. rewrite map_map. apply map_ext. intros p.
    unfold scheduled_update. simpl.
    destruct (Z.eqb_spec (id p) k) as [E|E].
    + subst k. rewrite Z.eqb_refl. simpl. rewrite find_fst_none by exact Hnot. reflexivity.
    + assert (E' : (k =? id p) = false) by (apply Z.eqb_neq; congruence).
      rewrite E'. reflexivity.
Qed.

Lemma bulk_schedule_preview tbl post_ids ty cfg user_id now tbl' sched :
  bulk_schedule_posts tbl post_ids ty cfg user_id now = (tbl', Preview sched) ->
  tbl' = apply_schedule tbl sched /\
  prefix_of (map fst sched) (map id (query_posts tbl post_ids user_id)).
Proof.
  intros E. unfold bulk_schedule_posts in E.
  destruct (_ || _); [discriminate|].
  destruct (String.eqb ty "evenly_spaced");
    [|destruct (String.eqb ty "specific_days");
      [|destruct (String.eqb ty "optimal_times")]].
  - destruct (evenly_spaced _ cfg) eqn:Es; [|discriminate].
    injection E as <- <-. split; [reflexivity|]. eapply evenly_spaced_prefix; eauto.
  - destruct (specific_days now _ cfg) eqn:Es; [|discriminate].
    injection E as <- <-. split; [reflexivity|]. eapply specific_days_prefix; eauto.
  - destruct (optimal_times now _ cfg) eqn:Es; [|discriminate].
    injection E as <- <-. split; [reflexivity|]. eapply optimal_days_loop_prefix; eauto.
  - injection E as <- <-. split; [reflexivity|]. apply prefix_of_nil.
Qed.

(** When the posts table has distinct identifiers, a request that returns
    a schedule names each post at most once, every scheduled post is a
    requested post of the user, and the committed table is the old one
    with each scheduled post set to Scheduled at its time and every other
    post unchanged. *)
Theorem bulk_schedule_effect tbl post_ids ty cfg user_id now tbl' sched :
  NoDup (map id tbl) ->
  bulk_schedule_posts tbl post_ids ty cfg user_id now = (tbl', Preview sched) ->
  NoDup (map fst sched) /\
  (forall pid, In pid (map fst sched) -> In pid post_ids /\ owned tbl user_id pid) /\
  tbl' = map (scheduled_update sched) tbl.
Proof.
  intros Hnd E. apply bulk_schedule_preview in E as [-> [rest Er]].
  assert (Hq : NoDup (map fst sched ++ rest)).
  { rewrite <- Er. apply NoDup_map_filter. exact Hnd. }
  assert (Hs : NoDup (map fst sched)) by (eapply NoDup_app_remove_r; eauto).
  split; [exact Hs|]. split.
  - intros pid Hin.
    assert (Hq' : In pid (map id (query_posts tbl post_ids user_id)))
      by (rewrite Er; apply in_or_app; now left).
    apply in_map_iff in Hq' as [p [<- Hp]].
    unfold query_posts in Hp. apply filter_In in Hp as [Hp Hf].
    apply andb_prop in Hf as [Hx Ha]. apply existsb_exists in Hx as [x [Hx Ex]].
    apply Z.eqb_eq in Ex. apply Z.eqb_eq in Ha. subst x.
    split; [exact Hx|]. exists p. auto.
  - now apply apply_schedule_spec.
Qed.

Lemma bulk_schedule_effect_witness :
  let tbl := [Samples.post_of 1 7; Samples.post_of 2 7] in
  let r := bulk_schedule_posts tbl [1; 2] "optimal_times" Samples.no_config 7 Samples.now_2024 in
  let sched := match snd r with Preview s => s | _ => [] end in
  NoDup (map fst sched) /\
  (forall pid, In pid (map fst sched) -> In pid [1; 2] /\ owned tbl 7 pid) /\
  fst r = map (scheduled_update sched) tbl.
Proof.
  intros tbl r sched.
  apply (bulk_schedule_effect tbl [1; 2] "optimal_times" Samples.no_config 7 Samples.now_2024
           (fst r) sched).
  - vm_compute. repeat constructor; simpl; intuition discriminate.
  - vm_compute. reflexivity.
Defined.

(** ** Allocator: where the timestamps fall *)

Lemma dt_date_day d : dt_date (d * DAY) = d.
Proof. unfold dt_date, DAY, HOUR, MINUTE, SECOND. apply Z.div_mul. lia. Qed.

Lemma combine_min_mod d : combine_min d mod MINUTE = 0.
Proof.
  unfold combine_min, DAY, HOUR, MINUTE, SECOND.
  replace (d * (24 * (60 * (60 * 1000000)))) with ((d * 1440) * (60 * 1000000)) by ring.
  apply Z.mod_mul. lia.
Qed.

Lemma dt_replace_combine d h m t :
  dt_replace_hm (combine_min d) h m = Ok t ->
  0 <= h <= 23 /\ 0 <= m <= 59 /\ t = d * DAY + h * HOUR + m * MINUTE.
Proof.
  unfold dt_replace_hm. intros E.
  destruct ((0 <=? h) && (h <=? 23) && (0 <=? m) && (m <=? 59)) eqn:B; [|discriminate].
  injection E as <-. rewrite !andb_true_iff, !Z.leb_le in B.
  rewrite combine_min_mod. unfold combine_min. rewrite dt_date_day. lia.
Qed.

Lemma date_add_days_one d d' : date_add_days d 1 = Ok d' -> d' = d + 1.
Proof.
  unfold date_add_days. simpl. destruct (_ && _); [|discriminate]. now injection 1.
Qed.

Lemma day_candidates_in now d slots l t :
  day_candidates now d slots = Ok l -> In t l ->
  exists slot h m, In slot slots /\ parse_time_slot slot = Ok (h, m) /\
    0 <= h <= 23 /\ 0 <= m <= 59 /\ t = d * DAY + h * HOUR + m * MINUTE /\ now < t.
Proof.
  revert l. induction slots as [|slot slots IH]; simpl; intros l E Hin.
  - injection E as <-. destruct Hin.
  - inv_bind E. injection E as <-. destruct a as [h m].
    pose proof (dt_replace_combine d h m a0 Ea0) as [Hh [Hm Ht]].
    destruct (now <? a0) eqn:L.
    + destruct Hin as [<- | Hin].
      * exists slot, h, m. apply Z.ltb_lt in L. auto 10.
      * destruct (IH a1 Ea1 Hin) as [s' [h' [m' H]]]. exists s', h', m'. tauto.
    + destruct (IH a1 Ea1 Hin) as [s' [h' [m' H]]]. exists s', h', m'. tauto.
Qed.

Lemma possible_dates_loop_in fuel now cur end_date wds slots l t :
  possible_dates_loop fuel now cur end_date wds slots = Ok l -> In t l ->
  exists d slot h m, cur <= d <= end_date /\ In (weekday d) wds /\
    In slot slots /\ parse_time_slot slot = Ok (h, m) /\
    0 <= h <= 23 /\ 0 <= m <= 59 /\ t = d * DAY + h * HOUR + m * MINUTE /\ now < t.
Proof.
  revert cur l. induction fuel as [|fuel IH]; simpl; intros cur l E Hin.
  - injection E as <-. destruct Hin.
  - destruct (end_date <? cur) eqn:Lc; [injection E as <-; destruct Hin|].
    apply Z.ltb_ge in Lc.
    inv_bind E. injection E as <-. apply date_add_days_one in Ea0. subst a0.
    apply in_app_or in Hin as [Hin | Hin].
    + destruct (existsb (Z.eqb (weekday cur)) wds) eqn:W;
        [|injection Ea as <-; destruct Hin].
      apply existsb_exists in W as [w [Hw Ew]]. apply Z.eqb_eq in Ew. subst w.
      destruct (day_candidates_in _ _ _ _ _ Ea Hin) as [slot [h [m H]]].
      exists cur, slot, h, m. intuition lia.
    + destruct (IH _ _ Ea1 Hin) as [d [slot [h [m H]]]].
      exists d, slot, h, m. intuition lia.
Qed.

Lemma assign_dates_in ps l pid t :
  In (pid, t) (assign_dates ps l) -> In pid (map id ps) /\ In t l.
Proof.
  revert l. induction ps as [|p ps IH]; intros [|d l]; simpl; try tauto.
  intros [E | Hin].
  - injection E as <- <-. auto.
  - destruct (IH l Hin). auto.
Qed.

(** Every pair of a specific-days schedule names a post of the batch and
    a time after [now] on a day between today and [weeks_ahead] weeks
    later whose weekday is one of the requested names, at the hour and
    minute of one of the configured time slots (seconds zero). *)
Theorem specific_days_slots now ps cfg sched pid t :
  specific_days now ps cfg = Ok sched -> In (pid, t) sched ->
  In pid (map id ps) /\ now < t /\
  exists d slot h m,
    dt_date now <= d <= dt_date now + 7 * get_default (cfg_weeks_ahead cfg) 4 /\
    In (weekday d) (to_weekdays (get_default (cfg_days cfg) ["Monday"%string])) /\
    In slot (get_default (cfg_time_slots cfg) default_slots) /\
    parse_time_slot slot = Ok (h, m) /\ 0 <= h <= 23 /\ 0 <= m <= 59 /\
    t = d * DAY + h * HOUR + m * MINUTE.
Proof.
  unfold specific_days. intros E Hin. inv_bind E. injection E as <-.
  apply assign_dates_in in Hin as [Hp Ht]. split; [exact Hp|].
  unfold date_add_days in Ea.
  destruct (MAX_DELTA_DAYS <? Z.abs _); [discriminate|].
  destruct (_ && _); [|discriminate]. injection Ea as <-.
  destruct (possible_dates_loop_in _ _ _ _ _ _ _ _ Ea0 Ht) as [d [slot [h [m H]]]].
  split; [tauto|]. exists d, slot, h, m. intuition lia.
Qed.

Lemma specific_days_slots_witness :
  let cfg := Samples.days_config ["Tuesday"%string] in
  let ps := [Samples.post_of 1 7] in
  let sched := match specific_days Samples.now_2024 ps cfg with Ok s => s | Raise _ => [] end in
  In 1 (map id ps) /\ Samples.now_2024 < 738887 * DAY + 9 * HOUR /\
  exists d slot h m,
    dt_date Samples.now_2024 <= d <= dt_date Samples.now_2024 + 7 * get_default (cfg_weeks_ahead cfg) 4 /\
    In (weekday d) (to_weekdays (get_default (cfg_days cfg) ["Monday"%string])) /\
    In slot (get_default (cfg_time_slots cfg) default_slots) /\
    parse_time_slot slot = Ok (h, m) /\ 0 <= h <= 23 /\ 0 <= m <= 59 /\
    738887 * DAY + 9 * HOUR = d * DAY + h * HOUR + m * MINUTE.
Proof.
  intros cfg ps sched.
  apply (specific_days_slots Samples.now_2024 ps cfg sched 1 (738887 * DAY + 9 * HOUR)).
  - vm_compute. reflexivity.
  - vm_compute. left. reflexivity.
Defined.

Lemma StronglySorted_app {A} (R : A -> A -> Prop) l1 l2 :
  StronglySorted R l1 -> StronglySorted R l2 ->
  (forall x y, In x l1 -> In y l2 -> R x y) -> StronglySorted R (l1 ++ l2).
Proof.
  induction l1 as [|a l1 IH]; simpl; intros H1 H2 H; [exact H2|].
  inversion H1 as [|? ? Hs Hf]; subst. constructor.
  - apply IH; auto.
  - apply Forall_app. split; [exact Hf|]. apply Forall_forall. intros y Hy. auto.
Qed.

Lemma optimal_hours_loop_slots now d hours rem r :
  StronglySorted Z.lt hours ->
  optimal_hours_loop now d hours rem = Ok r ->
  StronglySorted (fun a b => snd a < snd b) (fst r) /\
  Forall (fun pt => exists h, In h hours /\ 0 <= h <= 23 /\ snd pt = d * DAY + h * HOUR
                              /\ now < snd pt) (fst r).
Proof.
  revert rem r. induction hours as [|h hs IH]; simpl; intros rem r Hs E.
  - injection E as <-. split; constructor.
  - inversion Hs as [|? ? Hs' Hf]; subst.
    destruct rem as [|p rest]; [injection E as <-; split; constructor|].
    inv_bind E. apply dt_replace_combine in Ea as [Hh [_ Ha]].
    destruct (now <? a) eqn:L.
    + inv_bind E. injection E as <-. simpl.
      destruct (IH _ _ Hs' Ea) as [S1 F1]. split.
      * constructor; [exact S1|]. eapply Forall_impl; [|exact F1].
        intros [k t] [h' [Hin [_ [Et _]]]]. simpl in *.
        assert (h < h') by (eapply Forall_forall; eauto). subst. unfold HOUR, MINUTE, SECOND. lia.
      * constructor.
        -- exists h. apply Z.ltb_lt in L. simpl. intuition lia.
        -- eapply Forall_impl; [|exact F1]. intros pt [h' H]. exists h'. tauto.
    + destruct (IH _ _ Hs' E) as [S1 F1]. split; [exact S1|].
      eapply Forall_impl; [|exact F1]. intros pt [h' H]. exists h'. tauto.
Qed.

Lemma optimal_days_loop_slots days now d rem l :
  optimal_days_loop days now d rem = Ok l ->
  StronglySorted (fun a b => snd a < snd b) l /\
  Forall (fun pt => exists k h, 0 <= k < Z.of_nat days /\ In h optimal_hours /\
                               snd pt = (d + k) * DAY + h * HOUR /\ now < snd pt) l.
Proof.
  assert (Hsorted : StronglySorted Z.lt optimal_hours) by (repeat constructor; lia).
  revert d rem l. induction days as [|days IH]; intros d rem l E;
    cbn [optimal_days_loop] in E.
  - injection E as <-. split; constructor.
  - inv_bind E. apply date_add_days_one in Ea0. subst a0.
    destruct (optimal_hours_loop_slots _ _ _ _ _ Hsorted Ea) as [S1 F1].
    assert (F1' : Forall (fun pt => exists k h, 0 <= k < Z.of_nat (S days) /\
                     In h optimal_hours /\ snd pt = (d + k) * DAY + h * HOUR /\ now < snd pt)
                    (fst a)).
    { eapply Forall_impl; [|exact F1]. intros pt [h [Hin [_ [Et Hn]]]].
      exists 0, h. rewrite Z.add_0_r. intuition lia. }
    destruct (snd a) as [|p ps].
    + injection E as <-. auto.
    + inv_bind E. injection E as <-.
      destruct (IH _ _ _ Ea0) as [S2 F2]. split.
      * apply StronglySorted_app; [exact S1 | exact S2|].
        intros x y Hx Hy.
        pose proof (proj1 (Forall_forall _ _) F1 x Hx) as [h [Hh [Hb [Ex _]]]].
        pose proof (proj1 (Forall_forall _ _) F2 y Hy) as [k [h' [Hk [Hh' [Ey _]]]]].
        rewrite Ex, Ey. simpl in Hh'.
        unfold DAY, HOUR, MINUTE, SECOND. nia.
      * apply Forall_app. split; [exact F1'|].
        eapply Forall_impl; [|exact F2]. intros pt [k [h H]].
        exists (k + 1), h. rewrite Nat2Z.inj_succ.
        replace (d + (k + 1)) with (d + 1 + k) by ring. intuition lia.
Qed.

(** An optimal-times schedule is strictly increasing in time; each of its
    times is after [now], on one of the [days_ahead] days starting today,
    at 09:00, 12:00, 17:00 or 20:00 sharp. *)
Theorem optimal_times_slots now ps cfg sched :
  optimal_times now ps cfg = Ok sched ->
  StronglySorted (fun a b => snd a < snd b) sched /\
  Forall (fun pt => exists k h, 0 <= k < get_default (cfg_days_ahead cfg) 14 /\
                               In h [9; 12; 17; 20] /\
                               snd pt = (dt_date now + k) * DAY + h * HOUR /\
                               now < snd pt) sched.
Proof.
  unfold optimal_times. intros E.
  destruct (optimal_days_loop_slots _ _ _ _ _ E) as [S F]. split; [exact S|].
  eapply Forall_impl; [|exact F]. intros pt [k [h H]]. exists k, h.
  destruct H as [Hk H]. split; [|exact H].
  destruct (Z.le_gt_cases 0 (get_default (cfg_days_ahead cfg) 14)) as [Hle|Hgt].
  - rewrite Z2Nat.id in Hk by exact Hle. exact Hk.
  - destruct (get_default (cfg_days_ahead cfg) 14) as [|q|q]; simpl in Hk; lia.
Qed.

Lemma optimal_times_slots_witness :
  let ps := [Samples.post_of 1 7; Samples.post_of 2 7] in
  let sched := match optimal_times Samples.now_2024 ps Samples.no_config with
               | Ok s => s | Raise _ => [] end in
  StronglySorted (fun a b => snd a < snd b) sched /\
  Forall (fun pt => exists k h, 0 <= k < get_default (cfg_days_ahead Samples.no_config) 14 /\
                               In h [9; 12; 17; 20] /\
                               snd pt = (dt_date Samples.now_2024 + k) * DAY + h * HOUR /\
                               Samples.now_2024 < snd pt) sched.
Proof.
  intros ps sched. apply (optimal_times_slots Samples.now_2024 ps Samples.no_config sched).
  vm_compute. reflexivity.
Defined.

Lemma dt_replace_same_day t h m t' : dt_replace_hm t h m = Ok t' -> dt_date t' = dt_date t.
Proof.
  unfold dt_replace_hm. intros E.
  destruct ((0 <=? h) && (h <=? 23) && (0 <=? m) && (m <=? 59)) eqn:B; [|discriminate].
  injection E as <-. rewrite !andb_true_iff, !Z.leb_le in B.
  pose proof (Z.mod_pos_bound t MINUTE) as Hm.
  unfold dt_date. unfold DAY, HOUR, MINUTE, SECOND in *.
  rewrite <- !Z.add_assoc, Z.div_add_l by lia.
  rewrite (Z.div_small (h * _ + _)); [lia|]. nia.
Qed.

Lemma dt_add_days_ok t n t' : dt_add_days t n = Ok t' -> dt_date t' = dt_date t + n.
Proof.
  unfold dt_add_days. intros E.
  destruct (MAX_DELTA_DAYS <? Z.abs n); [discriminate|].
  destruct (_ && _); [|discriminate]. injection E as <-.
  unfold dt_date. rewrite Z.div_add by (unfold DAY, HOUR, MINUTE, SECOND; lia). reflexivity.
Qed.

Lemma evenly_fill_days ps cur end_date slots i l d0 :
  evenly_fill ps cur end_date slots i = Ok l -> d0 <= dt_date cur ->
  Forall (fun pt => d0 <= dt_date (snd pt) <= dt_date end_date) l.
Proof.
  revert cur i l. induction ps as [|p ps IH]; simpl; intros cur i l E Hd.
  - injection E as <-. constructor.
  - destruct (end_date <? cur) eqn:L; [injection E as <-; constructor|].
    apply Z.ltb_ge in L.
    inv_bind E. injection E as <-. apply dt_replace_same_day in Ea1.
    assert (Hc : dt_date cur <= dt_date end_date) by (apply Z.div_le_mono; [unfold DAY, HOUR, MINUTE, SECOND|]; lia).
    constructor; [simpl; lia|].
    destruct (_ <=? _)%nat.
    + inv_bind Ea2. apply dt_add_days_ok in Ea3. eapply IH; [exact Ea2 | lia].
    + eapply IH; [exact Ea2 | lia].
Qed.

(** In the branch of the evenly-spaced strategy where the posts per day
    fit the time slots, for naive start and end dates (no UTC offset),
    every timestamp falls on a day from the start date's to the end
    date's. *)
Theorem evenly_fill_range ps start_date end_date slots l :
  evenly_fill ps start_date end_date slots 0 = Ok l ->
  Forall (fun pt => dt_date start_date <= dt_date (snd pt) <= dt_date end_date) l.
Proof. intros E. eapply evenly_fill_days; [exact E | lia]. Qed.

Lemma evenly_fill_range_witness :
  let l := match evenly_fill [Samples.post_of 1 7; Samples.post_of 2 7] (737425 * DAY)
                   (737426 * DAY) ["09:00"%string] 0 with Ok l => l | Raise _ => [] end in
  Forall (fun pt => dt_date (737425 * DAY) <= dt_date (snd pt) <= dt_date (737426 * DAY)) l.
Proof.
  intros l. apply (evenly_fill_range [Samples.post_of 1 7; Samples.post_of 2 7] (737425 * DAY)
                     (737426 * DAY) ["09:00"%string] l).
  vm_compute. reflexivity.
Defined.

(** An evenly-spaced request whose end date is less than one day before
    its start date divides by zero ([days_between] is 0): when the
    identifiers are valid, the endpoint answers 500 and no post changes. *)
Theorem bulk_schedule_zero_days tbl post_ids cfg user_id now s e :
  post_ids <> [] -> List.length (query_posts tbl post_ids user_id) = List.length post_ids ->
  cfg_start_date cfg = DateParsed s -> cfg_end_date cfg = DateParsed e ->
  s - DAY <= e < s ->
  bulk_schedule_endpoint tbl post_ids "evenly_spaced" cfg user_id now = (tbl, Http500).
Proof.
  intros Hne Hlen Hs He Hse.
  unfold bulk_schedule_endpoint, bulk_schedule_posts.
  rewrite Hlen, Nat.eqb_refl.
  destruct (query_posts tbl post_ids user_id) eqn:Q;
    [destruct post_ids; [contradiction | discriminate]|].
  simpl. unfold evenly_spaced. rewrite Hs, He. simpl.
  assert (Hd : delta_days e s = -1).
  { unfold delta_days. symmetry. apply Z.div_unique with (e - s + DAY);
      unfold DAY, HOUR, MINUTE, SECOND in *; lia. }
  rewrite Hd. reflexivity.
Qed.

Lemma bulk_schedule_zero_days_witness :
  bulk_schedule_endpoint [Samples.post_of 1 7] [1] "evenly_spaced"
    (Samples.range_config (737425 * DAY) (737425 * DAY - HOUR)) 7 Samples.now_2024
  = ([Samples.post_of 1 7], Http500).
Proof.
  apply (bulk_schedule_zero_days [Samples.post_of 1 7] [1]
           (Samples.range_config (737425 * DAY) (737425 * DAY - HOUR)) 7 Samples.now_2024
           (737425 * DAY) (737425 * DAY - HOUR)); try discriminate; try reflexivity.
  unfold DAY, HOUR, MINUTE, SECOND. lia.
Defined.

(** ** Workers: what a cycle changes *)

Section Preservation.

Variable I : Db -> Db -> Prop.

Lemma pr_ret {A} (a : A) : preserves I (ret a).
Proof. intros s H. exact H. Qed.

Lemma pr_raise {A} e : preserves I (@raise A e).
Proof. intros s H. exact H. Qed.

Lemma pr_emit e : preserves I (emit e).
Proof. intros s H. exact H. Qed.

Lemma pr_get_current : preserves I get_current.
Proof. intros s H. exact H. Qed.

Lemma pr_get_user uid : preserves I (get_user uid).
Proof. intros s H. exact H. Qed.

Lemma pr_get_analytics ext pid : preserves I (get_analytics ext pid).
Proof.
  intros s H. unfold get_analytics. now destruct (ext_analytics_query_fails ext pid).
Qed.

Lemma pr_modify f : (forall c d, I c d -> I c (f d)) -> preserves I (modify_current f).
Proof. intros Hf s H. exact (Hf _ _ H). Qed.

Lemma pr_commit : (forall c d, I c d -> I (flush d) (flush d)) -> preserves I commit.
Proof. intros Hc s H. exact (Hc _ _ H). Qed.

Lemma pr_bind {A B} (m : M A) (k : A -> M B) :
  preserves I m -> (forall a, preserves I (k a)) -> preserves I (bind m k).
Proof.
  intros Hm Hk s H. unfold bind. specialize (Hm s H).
  destruct (m s) as [s' [a|e]]; [exact (Hk a s' Hm) | exact Hm].
Qed.

Lemma pr_try {A} (m : M A) (h : PyExc -> M A) :
  preserves I m -> (forall e, preserves I (h e)) -> preserves I (try_except m h).
Proof.
  intros Hm Hh s H. unfold try_except. specialize (Hm s H).
  destruct (m s) as [s' [a|e]]; [exact Hm | exact (Hh e s' Hm)].
Qed.

End Preservation.

Ltac pr leaf :=
  repeat first
    [ progress cbv beta
    | apply pr_ret | apply pr_raise | apply pr_emit | apply pr_get_current
    | apply pr_get_user | apply pr_get_analytics
    | apply pr_modify; intros ? ? ?; cbv beta in *; leaf
    | apply pr_commit; intros ? ? ?; cbv beta in *; leaf
    | apply pr_bind; [ | intro ]
    | apply pr_try; [ | intro ]
    | match goal with
      | |- preserves _ (match ?x with _ => _ end) => destruct x
      end ].

Lemma posts_upsert a d : posts (upsert_analytics_in a d) = posts d.
Proof. unfold upsert_analytics_in. now destruct (existsb _ _). Qed.

(** *** The analytics sync changes no post *)

Ltac same_posts_leaf :=
  idtac;
  match goal with
  | H : same_posts _ _ _ |- _ =>
      destruct H as [H1 H2]; split; simpl; rewrite ?posts_upsert; assumption
  end.

Lemma sp_refresh_token P0 now ext u rt : preserves (same_posts P0) (refresh_token now ext u rt).
Proof. unfold refresh_token. pr same_posts_leaf. Qed.

Lemma sp_sync_each P0 now ext uid ps : preserves (same_posts P0) (sync_each now ext uid ps).
Proof.
  induction ps as [|p ps IH]; simpl; [apply pr_ret|].
  apply pr_bind; [|intros _; exact IH].
  apply pr_try; [|intros; apply pr_ret].
  unfold sync_one. pr same_posts_leaf.
Qed.

Lemma sp_sync_groups P0 now ext g : preserves (same_posts P0) (sync_groups now ext g).
Proof.
  induction g as [|[uid ps] g IH]; simpl; [apply pr_ret|].
  apply pr_bind; [|intros _; exact IH].
  unfold sync_group. pr same_posts_leaf. apply sp_sync_each.
Qed.

(** The analytics sync never changes the posts table: no post is added,
    removed or modified (status, times and identifiers included). *)
Theorem sync_cycle_keeps_posts now ext db :
  posts (fst (run_sync_cycle now ext db)) = posts db.
Proof.
  unfold run_sync_cycle.
  assert (H : same_posts (posts db) (committed (init_session db)) (current (init_session db)))
    by (split; reflexivity).
  assert (Hp : preserves (same_posts (posts db)) (sync_post_analytics now ext)).
  { unfold sync_post_analytics. apply pr_bind; [apply pr_get_current|].
    intros d. apply sp_sync_groups. }
  specialize (Hp _ H).
  destruct (sync_post_analytics now ext (init_session db)) as [s r].
  exact (proj1 Hp).
Qed.

(** *** The publish cycle changes only due posts, to Published or Failed *)

Lemma stepped_update now S P0 ps pid f :
  In pid S ->
  (forall p, id (f p) = id p
             /\ (status (f p) = FAILED
                 \/ (status (f p) = PUBLISHED /\ published_time (f p) = Some now))) ->
  Forall2 (post_step now S) P0 ps ->
  Forall2 (post_step now S) P0 (map (fun p => if id p =? pid then f p else p) ps).
Proof.
  intros Hin Hf H. induction H as [|p0 p P0 ps Hs H IH]; simpl; constructor; [|exact IH].
  destruct (Z.eqb_spec (id p) pid) as [E|E]; [|exact Hs].
  destruct (Hf p) as [Hid Hst]. right.
  destruct Hs as [-> | [Hp [Hin0 _]]].
  - subst pid. auto.
  - rewrite Hid, Hp. auto.
Qed.

Ltac stepped_leaf :=
  idtac;
  match goal with
  | H : posts_stepped _ _ _ _ _ |- _ =>
      destruct H as [H1 H2]; split;
      [ cbn [posts flush update_user_in]; assumption
      | first
          [ cbn [posts flush update_user_in]; assumption
          | rewrite posts_upsert; assumption
          | unfold update_post_in; cbn [posts];
            apply stepped_update;
            [ assumption
            | intros; split;
              [ reflexivity
              | first [ left; reflexivity
                      | right; split; reflexivity ] ]
            | assumption ] ] ]
  end.

Lemma ps_refresh_token S P0 now ext u rt :
  preserves (posts_stepped now S P0) (refresh_token now ext u rt).
Proof. unfold refresh_token. pr stepped_leaf. Qed.

Lemma ps_process_post S P0 now ext p :
  In (id p) S -> preserves (posts_stepped now S P0) (process_post now ext p).
Proof.
  intros Hin. unfold process_post, fail_post, set_status, publish_post. pr stepped_leaf.
Qed.

Lemma ps_process_each S P0 now ext ps :
  Forall (fun p => In (id p) S) ps -> preserves (posts_stepped now S P0) (process_each now ext ps).
Proof.
  induction ps as [|p ps IH]; simpl; intros H; [apply pr_ret|].
  inversion H; subst. apply pr_bind; [now apply ps_process_post | intros _; now apply IH].
Qed.

Lemma post_step_refl now S ps : Forall2 (post_step now S) ps ps.
Proof. induction ps; constructor; [left; reflexivity | assumption]. Qed.

Lemma publish_frame_steps now ext db :
  Forall2 (post_step now (map id (due_posts now (posts db))))
          (posts db) (posts (fst (run_publish_cycle now ext db))).
Proof.
  set (S := map id (due_posts now (posts db))).
  unfold run_publish_cycle.
  change (process_scheduled_posts now ext (init_session db))
    with (process_each now ext (due_posts now (posts db)) (init_session db)).
  assert (H : posts_stepped now S (posts db) (committed (init_session db)) (current (init_session db)))
    by (split; apply post_step_refl).
  assert (HF : Forall (fun p => In (id p) S) (due_posts now (posts db))).
  { apply Forall_forall. intros p Hp. now apply in_map. }
  pose proof (ps_process_each S (posts db) now ext _ HF (init_session db) H) as Hp.
  destruct (process_each now ext (due_posts now (posts db)) (init_session db)) as [s r].
  exact (proj1 Hp).
Qed.

(** The publish worker adds and removes no post and keeps their order;
    a post is changed only if its identifier is that of a post selected
    as due in this cycle, and then it keeps its identifier and ends
    Failed, or Published with [published_time = now]. *)
Theorem publish_cycle_frame now ext db :
  Forall2 (post_step now (map id (due_posts now (posts db))))
          (posts db) (posts (fst (run_publish_cycle now ext db))).
Proof. exact (publish_frame_steps now ext db). Qed.

(** ** Allocator: the optimal-times strategy schedules every post *)

Lemma dt_replace_combine_ok d h :
  0 <= h <= 23 -> dt_replace_hm (combine_min d) h 0 = Ok (d * DAY + h * HOUR).
Proof.
  intros Hh. unfold dt_replace_hm.
  replace ((0 <=? h) && (h <=? 23) && (0 <=? 0) && (0 <=? 59)) with true
    by (symmetry; rewrite !andb_true_iff, !Z.leb_le; lia).
  rewrite combine_min_mod. unfold combine_min. rewrite dt_date_day. f_equal. ring.
Qed.

Lemma optimal_hours_full now d rem :
  now < d * DAY ->
  exists l, optimal_hours_loop now d optimal_hours rem = Ok (l, skipn 4 rem) /\
            map fst l = map id (firstn 4 rem).
Proof.
  intros Hn. unfold optimal_hours.
  assert (L : forall h, 0 <= h -> (now <? d * DAY + h * HOUR) = true)
    by (intros h Hh; apply Z.ltb_lt; unfold HOUR, MINUTE, SECOND in *; lia).
  destruct rem as [|p1 [|p2 [|p3 [|p4 rest]]]];
    cbn [optimal_hours_loop];
    rewrite ?dt_replace_combine_ok by lia; cbn [py_bind];
    rewrite ?L by lia;
    cbn [optimal_hours_loop];
    rewrite ?dt_replace_combine_ok by lia; cbn [py_bind];
    rewrite ?L by lia;
    cbn [optimal_hours_loop];
    rewrite ?dt_replace_combine_ok by lia; cbn [py_bind];
    rewrite ?L by lia;
    cbn [optimal_hours_loop];
    rewrite ?dt_replace_combine_ok by lia; cbn [py_bind];
    rewrite ?L by lia;
    cbn [optimal_hours_loop py_bind fst snd];
    eexists; (split; [reflexivity|reflexivity]).
Qed.

Lemma optimal_hours_ok now d hours rem :
  Forall (fun h => 0 <= h <= 23) hours ->
  exists r, optimal_hours_loop now d hours rem = Ok r.
Proof.
  revert rem. induction hours as [|h hs IH]; simpl; intros rem Hh; [eauto|].
  inversion Hh; subst. destruct rem as [|p rest]; [eauto|].
  rewrite dt_replace_combine_ok by assumption. simpl.
  destruct (now <? d * DAY + h * HOUR).
  - destruct (IH rest) as [r Er]; [assumption|]. rewrite Er. simpl. eauto.
  - apply IH. assumption.
Qed.

Lemma date_add_days_succ d : 0 <= d -> d + 1 <= MAXORDINAL -> date_add_days d 1 = Ok (d + 1).
Proof.
  intros H1 H2. unfold date_add_days. simpl.
  replace ((1 <=? d + 1) && (d + 1 <=? MAXORDINAL)) with true
    by (symmetry; rewrite andb_true_iff, !Z.leb_le; lia).
  reflexivity.
Qed.

Lemma optimal_days_full days now d rem :
  0 <= d -> now < d * DAY -> d + Z.of_nat days <= MAXORDINAL ->
  (List.length rem <= 4 * days)%nat ->
  exists l, optimal_days_loop days now d rem = Ok l /\ map fst l = map id rem.
Proof.
  revert d rem. induction days as [|days IH]; intros d rem Hd Hn Hmax Hlen.
  - destruct rem; [|simpl in Hlen; lia]. exists []. split; reflexivity.
  - cbn [optimal_days_loop].
    destruct (optimal_hours_full now d rem Hn) as [l1 [E1 M1]]. rewrite E1. cbn [py_bind].
    rewrite date_add_days_succ by lia. cbn [py_bind snd fst].
    destruct (skipn 4 rem) as [|x xs] eqn:Es.
    + exists l1. split; [reflexivity|].
      pose proof (firstn_skipn 4 rem) as F. rewrite Es, app_nil_r in F.
      rewrite M1, F. reflexivity.
    + destruct (IH (d + 1) (x :: xs)) as [l2 [E2 M2]].
      * lia.
      * unfold DAY, HOUR, MINUTE, SECOND in *. lia.
      * lia.
      * rewrite <- Es, length_skipn. lia.
      * rewrite E2. cbn [py_bind]. eexists. split; [reflexivity|].
        pose proof (firstn_skipn 4 rem) as F. rewrite Es in F.
        rewrite map_app, M1, M2, <- map_app, F. reflexivity.
Qed.

(** With [now] in the range of [datetime] and [days_ahead] days after
    today still valid dates, the optimal-times strategy raises nothing
    and schedules every post of a batch of at most
    [4 * (days_ahead - 1)] posts (52 with the default of 14 days), in the
    order of the batch. *)
Theorem optimal_times_complete now ps cfg :
  0 <= now ->
  dt_date now + get_default (cfg_days_ahead cfg) 14 <= MAXORDINAL ->
  Z.of_nat (List.length ps) <= 4 * (get_default (cfg_days_ahead cfg) 14 - 1) ->
  exists sched, optimal_times now ps cfg = Ok sched /\ map fst sched = map id ps.
Proof.
  intros Hnow Hmax Hlen. unfold optimal_times.
  set (K := get_default (cfg_days_ahead cfg) 14) in *.
  assert (HK : 1 <= K) by lia.
  assert (Hd0 : 0 <= dt_date now)
    by (unfold dt_date; apply Z.div_pos; unfold DAY, HOUR, MINUTE, SECOND; lia).
  assert (Hlt : now < (dt_date now + 1) * DAY).
  { unfold dt_date. pose proof (Z.mod_pos_bound now DAY) as Hb.
    pose proof (Z.div_mod now DAY) as Hdm.
    unfold DAY, HOUR, MINUTE, SECOND in *. lia. }
  replace (Z.to_nat K) with (S (Z.to_nat (K - 1))) by lia.
  cbn [optimal_days_loop].
  assert (Hh : Forall (fun h => 0 <= h <= 23) optimal_hours) by (repeat constructor; lia).
  destruct (optimal_hours_ok now (dt_date now) optimal_hours ps Hh) as [r Er].
  pose proof (optimal_hours_loop_prefix _ _ _ _ _ Er) as Mr.
  rewrite Er. cbn [py_bind].
  rewrite date_add_days_succ by lia. cbn [py_bind].
  destruct (snd r) as [|x xs] eqn:Es.
  - exists (fst r). split; [reflexivity|]. rewrite Mr. simpl. symmetry. apply app_nil_r.
  - destruct (optimal_days_full (Z.to_nat (K - 1)) now (dt_date now + 1) (x :: xs))
      as [l2 [E2 M2]].
    + lia.
    + exact Hlt.
    + lia.
    + assert (Hl : List.length (map id ps) = List.length (map fst (fst r) ++ map id (x :: xs)))
        by now rewrite Mr.
      rewrite length_app, !length_map in Hl. lia.
    + rewrite E2. cbn [py_bind]. eexists. split; [reflexivity|].
      rewrite map_app, M2, Mr. reflexivity.
Qed.

Lemma optimal_times_complete_witness :
  exists sched, optimal_times Samples.now_2024 [Samples.post_of 1 7; Samples.post_of 2 7]
                  Samples.no_config = Ok sched /\
                map fst sched = map id [Samples.post_of 1 7; Samples.post_of 2 7].
Proof.
  apply (optimal_times_complete Samples.now_2024 [Samples.post_of 1 7; Samples.post_of 2 7]
           Samples.no_config); vm_compute; congruence.
Defined.

(** ** Publish worker: publish calls *)

Section EventBudget.

Variable f : Event -> bool.

Lemma ev_count_app a b : ev_count f (a ++ b) = (ev_count f a + ev_count f b)%nat.
Proof. unfold ev_count. now rewrite filter_app, length_app. Qed.

Lemma eb_nil {A} n (m : M A) :
  (forall s, trace (fst (m s)) = trace s) -> ev_bounded f n m.
Proof. intros H s. exists []. rewrite H, app_nil_r. split; [reflexivity|]. apply Nat.le_0_l. Qed.

Lemma eb_ret {A} n (a : A) : ev_bounded f n (ret a).
Proof. now apply eb_nil. Qed.

Lemma eb_raise {A} n e : ev_bounded f n (@raise A e).
Proof. now apply eb_nil. Qed.

Lemma eb_modify n g : ev_bounded f n (modify_current g).
Proof. now apply eb_nil. Qed.

Lemma eb_get_current n : ev_bounded f n get_current.
Proof. now apply eb_nil. Qed.

Lemma eb_get_user n uid : ev_bounded f n (get_user uid).
Proof. now apply eb_nil. Qed.

Lemma eb_get_analytics n ext pid : ev_bounded f n (get_analytics ext pid).
Proof.
  apply eb_nil. intros s. unfold get_analytics.
  now destruct (ext_analytics_query_fails ext pid).
Qed.

Lemma eb_emit_other n e : f e = false -> ev_bounded f n (emit e).
Proof.
  intros He s. exists [e]. split; [reflexivity|].
  unfold ev_count. simpl. rewrite He. simpl. lia.
Qed.

Lemma eb_emit n e : (1 <= n)%nat -> ev_bounded f n (emit e).
Proof.
  intros Hn s. exists [e]. split; [reflexivity|].
  unfold ev_count. simpl. destruct (f e); simpl; lia.
Qed.

Lemma eb_commit n : f EvCommit = false -> ev_bounded f n commit.
Proof.
  intros He s. exists [EvCommit]. split; [reflexivity|].
  unfold ev_count. simpl. rewrite He. simpl. lia.
Qed.

Lemma eb_mono {A} n n' (m : M A) : (n <= n')%nat -> ev_bounded f n m -> ev_bounded f n' m.
Proof. intros Hle H s. destruct (H s) as [ev [T C]]. exists ev. split; [exact T|lia]. Qed.

Lemma eb_bind {A B} n1 n2 (m : M A) (k : A -> M B) :
  ev_bounded f n1 m -> (forall a, ev_bounded f n2 (k a)) ->
  ev_bounded f (n1 + n2) (bind m k).
Proof.
  intros H1 H2 s. unfold bind.
  destruct (H1 s) as [ev1 [T1 C1]]. destruct (m s) as [s' r]. simpl in T1.
  destruct r as [a|e].
  - destruct (H2 a s') as [ev2 [T2 C2]]. exists (ev1 ++ ev2).
    rewrite T2, T1, app_assoc. split; [reflexivity|].
    rewrite ev_count_app. lia.
  - exists ev1. simpl. split; [exact T1|lia].
Qed.

Lemma eb_bind0 {A B} n (m : M A) (k : A -> M B) :
  ev_bounded f 0 m -> (forall a, ev_bounded f n (k a)) -> ev_bounded f n (bind m k).
Proof. intros H1 H2. exact (eb_bind 0 n m k H1 H2). Qed.

Lemma eb_try0 {A} n (m : M A) (h : PyExc -> M A) :
  ev_bounded f n m -> (forall e, ev_bounded f 0 (h e)) -> ev_bounded f n (try_except m h).
Proof.
  intros H1 H2 s. unfold try_except.
  destruct (H1 s) as [ev1 [T1 C1]]. destruct (m s) as [s' r]. simpl in T1.
  destruct r as [a|e].
  - exists ev1. simpl. split; [exact T1|lia].
  - destruct (H2 e s') as [ev2 [T2 C2]]. exists (ev1 ++ ev2).
    rewrite T2, T1, app_assoc. split; [reflexivity|].
    rewrite ev_count_app. lia.
Qed.

End EventBudget.

Ltac eb :=
  repeat first
    [ progress cbv beta
    | apply eb_ret | apply eb_raise | apply eb_modify
    | apply eb_commit; reflexivity
    | apply eb_get_user | apply eb_get_analytics | apply eb_get_current
    | apply eb_emit_other; reflexivity
    | apply eb_bind0; [ | intro ]
    | apply eb_try0; [ | intro ]
    | match goal with
      | |- ev_bounded _ _ (match ?x with _ => _ end) => destruct x
      end ].

Lemma eb_refresh_token x n now ext u rt :
  ev_bounded (is_publish_of x) n (refresh_token now ext u rt).
Proof. unfold refresh_token. eb. Qed.

Lemma eb_fail_post x n pid : ev_bounded (is_publish_of x) n (fail_post pid).
Proof. unfold fail_post, set_status. eb. Qed.

Lemma eb_publish_post x now ext p :
  ev_bounded (is_publish_of x) (if id p =? x then 1 else 0) (publish_post now ext p).
Proof.
  unfold publish_post. apply eb_bind0; [apply eb_get_user | intros [u|]; [|apply eb_ret]].
  cbv beta. eapply eb_mono; [|apply (eb_bind _ (if id p =? x then 1 else 0) 0)].
  { lia. }
  - destruct (id p =? x) eqn:E.
    + apply eb_emit. lia.
    + apply eb_emit_other. simpl. exact E.
  - intros _. eb.
Qed.

Lemma eb_process_post x now ext p :
  ev_bounded (is_publish_of x) (if id p =? x then 1 else 0) (process_post now ext p).
Proof.
  unfold process_post. apply eb_try0; [|intros; apply eb_fail_post].
  apply eb_bind0; [apply eb_get_user | intros [u|]; [|apply eb_ret]].
  cbv beta.
  destruct (negb (truthy (linkedin_access_token u))); [apply eb_fail_post|].
  destruct (token_expired now u); [|apply eb_publish_post].
  destruct (negb (truthy (linkedin_refresh_token u))); [apply eb_fail_post|].
  apply eb_bind0.
  - apply eb_try0.
    + apply eb_bind0; [apply eb_refresh_token | intros; apply eb_ret].
    + intros. apply eb_bind0; [apply eb_fail_post | intros; apply eb_ret].
  - intros [|]; [apply eb_publish_post | apply eb_ret].
Qed.

Lemma eb_process_each x now ext ps :
  ev_bounded (is_publish_of x) (count_occ Z.eq_dec (map id ps) x) (process_each now ext ps).
Proof.
  induction ps as [|p ps IH]; simpl; [apply eb_ret|].
  eapply eb_mono; [|apply eb_bind; [apply eb_process_post | intros _; exact IH]].
  destruct (Z.eq_dec (id p) x) as [E|E].
  - rewrite E, Z.eqb_refl. lia.
  - replace (id p =? x) with false by (symmetry; apply Z.eqb_neq; exact E). lia.
Qed.

(** In one cycle the publish worker calls the publishing platform for a
    post [x] at most as many times as the due posts carry the identifier
    [x]: never for a post that was not due, and at most once per due post
    when identifiers are distinct. *)
Theorem publish_cycle_publish_calls now ext db x :
  (ev_count (is_publish_of x) (snd (run_publish_cycle now ext db))
   <= count_occ Z.eq_dec (map id (due_posts now (posts db))) x)%nat.
Proof.
  unfold run_publish_cycle.
  change (process_scheduled_posts now ext (init_session db))
    with (process_each now ext (due_posts now (posts db)) (init_session db)).
  destruct (eb_process_each x now ext (due_posts now (posts db)) (init_session db))
    as [ev [T C]].
  destruct (process_each now ext (due_posts now (posts db)) (init_session db)) as [s r].
  simpl in T |- *. rewrite T. exact C.
Qed.

(** ** Publish worker: a refresh answer without [expires_in] *)

Lemma find_update_user uid g us :
  (forall v, user_id (g v) = user_id v) ->
  find (fun v => user_id v =? uid) (map (fun v => if user_id v =? uid then g v else v) us)
  = option_map g (find (fun v => user_id v =? uid) us).
Proof.
  intros Hg. induction us as [|v us IH]; [reflexivity|]. simpl.
  destruct (user_id v =? uid) eqn:E; simpl.
  - rewrite Hg, E. reflexivity.
  - rewrite E. exact IH.
Qed.

(** When the refresh answer carries an access token but no [expires_in],
    the [KeyError] is caught: the post is marked Failed and the commit
    persists the new access token with the old, already expired, expiry;
    nothing is published. *)
Theorem process_post_refresh_without_expiry now ext p u s acc rt' :
  find (fun v => user_id v =? author_id p) (users (current s)) = Some u ->
  truthy (linkedin_access_token u) = true ->
  token_expired now u = true ->
  truthy (linkedin_refresh_token u) = true ->
  ext_refresh_access_token ext (get_default (linkedin_refresh_token u) EmptyString)
    = RefreshReturns (mkRefreshResponse (Some acc) rt' None) ->
  let (s', r) := process_post now ext p s in
  r = Ok tt /\
  trace s' = trace s ++ [EvRefresh (user_id u); EvStatus (id p) FAILED; EvCommit] /\
  committed s' = current s' /\
  (exists u', find (fun v => user_id v =? author_id p) (users (committed s')) = Some u'
              /\ linkedin_access_token u' = acc
              /\ linkedin_token_expires_at u' = linkedin_token_expires_at u
              /\ token_expired now u' = true) /\
  Forall (fun q => id q = id p -> status q = FAILED) (posts (committed s')).
Proof.
  intros Hu Hacc Hexp Hrt Href.
  assert (Huid : user_id u = author_id p).
  { apply find_some in Hu as [_ Hu]. apply Z.eqb_eq in Hu. exact Hu. }
  unfold process_post, try_except, bind, get_user, ret.
  rewrite Hu, Hacc, Hexp, Hrt. simpl negb. cbv iota beta.
  unfold refresh_token, emit, bind. simpl. rewrite Href. simpl.
  repeat split.
  - rewrite <- !app_assoc. reflexivity.
  - exists (set_refresh_token (get_default rt' (linkedin_refresh_token (set_access_token acc u)))
                              (set_access_token acc u)).
    simpl. rewrite Huid.
    rewrite (find_update_user (author_id p)
               (fun v => set_refresh_token (get_default rt' (linkedin_refresh_token v)) v))
      by reflexivity.
    rewrite find_update_user by reflexivity. rewrite Hu. simpl.
    repeat split; try reflexivity. exact Hexp.
  - apply Forall_forall. intros q Hq. simpl in Hq.
    apply in_map_iff in Hq as [q0 [Eq Hq0]]. subst q.
    destruct (id q0 =? id p) eqn:E; [reflexivity|].
    intros Hid. apply Z.eqb_neq in E. contradiction.
Qed.

(** [process_post_refresh_without_expiry] on a due post whose author's
    token expired an hour before. *)
Lemma process_post_refresh_without_expiry_witness :
  let u := Samples.user_with 7 (Some "token"%string) (Some "refresh"%string)
                     (Some (Samples.now_2024 - HOUR)) in
  let s := init_session (mkDb [Samples.due_post 1 7] [u] []) in
  find (fun v => user_id v =? 7) (users (current s)) = Some u /\
  (let (s', r) := process_post Samples.now_2024 Samples.ext_refresh_no_expiry
                    (Samples.due_post 1 7) s in
   r = Ok tt /\
   trace s' = trace s ++ [EvRefresh (user_id u); EvStatus 1 FAILED; EvCommit] /\
   committed s' = current s' /\
   (exists u', find (fun v => user_id v =? 7) (users (committed s')) = Some u'
               /\ linkedin_access_token u' = Some "new"%string
               /\ linkedin_token_expires_at u' = linkedin_token_expires_at u
               /\ token_expired Samples.now_2024 u' = true) /\
   Forall (fun q => id q = 1 -> status q = FAILED) (posts (committed s'))).
Proof.
  cbv zeta. split; [reflexivity|].
  apply (process_post_refresh_without_expiry Samples.now_2024 Samples.ext_refresh_no_expiry
           (Samples.due_post 1 7)
           (Samples.user_with 7 (Some "token"%string) (Some "refresh"%string)
              (Some (Samples.now_2024 - HOUR)))
           _ (Some "new"%string) None); reflexivity.
Defined.

(** ** Analytics summary *)

Lemma best_post_loop_spec ps ans bp be res :
  best_post_loop ps ans bp be = Ok res ->
  (res = bp /\ forall q e, In q ps -> post_engagement ans q = Some e -> e <= be)
  \/ exists pre p rest e,
       ps = pre ++ p :: rest /\ res = Some p /\ post_engagement ans p = Some e /\ be < e
       /\ (forall q e', In q pre -> post_engagement ans q = Some e' -> e' < e)
       /\ (forall q e', In q rest -> post_engagement ans q = Some e' -> e' <= e).
Proof.
  revert bp be. induction ps as [|p ps IH]; intros bp be E; simpl in E.
  - left. injection E as <-. split; [reflexivity | intros q e []].
  - destruct (find (fun a => an_post_id a =? id p) ans) as [pa|] eqn:Ef.
    + destruct (py_add3 (likes pa) (comments pa) (shares pa)) as [e0|x] eqn:Ee;
        [|discriminate].
      simpl in E.
      assert (Hp : post_engagement ans p = Some e0)
        by (unfold post_engagement; rewrite Ef, Ee; reflexivity).
      destruct (be <? e0) eqn:Hlt.
      * apply Z.ltb_lt in Hlt.
        destruct (IH _ _ E) as [[-> Hall] | [pre [p' [rest [e [Eps [Er [He [Hlt' [Hpre Hrest]]]]]]]]]].
        -- right. exists [], p, ps, e0. repeat split; try assumption.
           intros q e' [].
        -- right. exists (p :: pre), p', rest, e. subst ps. repeat split; try assumption; try lia.
           intros q e' [<-|Hq] Hq'; [congruence | eauto].
      * apply Z.ltb_ge in Hlt.
        destruct (IH _ _ E) as [[-> Hall] | [pre [p' [rest [e [Eps [Er [He [Hlt' [Hpre Hrest]]]]]]]]]].
        -- left. split; [reflexivity|]. intros q e' [<-|Hq] Hq'; [congruence | eauto].
        -- right. exists (p :: pre), p', rest, e. subst ps. repeat split; try assumption.
           intros q e' [<-|Hq] Hq'; [assert (e' = e0) by congruence; lia | eauto].
    + assert (Hp : post_engagement ans p = None)
        by (unfold post_engagement; rewrite Ef; reflexivity).
      destruct (IH _ _ E) as [[-> Hall] | [pre [p' [rest [e [Eps [Er [He [Hlt' [Hpre Hrest]]]]]]]]]].
      * left. split; [reflexivity|]. intros q e' [<-|Hq] Hq'; [congruence | eauto].
      * right. exists (p :: pre), p', rest, e. subst ps. repeat split; try assumption.
        intros q e' [<-|Hq] Hq'; [congruence | eauto].
Qed.

Lemma dt_add_days_neg_ok t n r : dt_add_days t (- n) = Ok r -> r = t - n * DAY.
Proof.
  unfold dt_add_days. intros E.
  destruct (MAX_DELTA_DAYS <? Z.abs (- n)); [discriminate|].
  destruct ((1 <=? dt_date t + - n) && (dt_date t + - n <=? MAXORDINAL)); [|discriminate].
  injection E as <-. lia.
Qed.

(** When the summary is computed, [best_performing_post] is the first
    post of the window whose engagement (likes + comments + shares of its
    metrics record) is positive and maximal: no post before it reaches its
    engagement and none after it exceeds it. It is [None] exactly when no
    post of the window has a positive engagement. *)
Theorem summary_best_post now d uid days sm :
  get_analytics_summary now d uid days = Ok sm ->
  let ps := summary_posts (now - days * DAY) now uid (posts d) in
  let ans := summary_analytics (map id ps) (analytics d) in
  (best_performing_post sm = None
   /\ forall q e, In q ps -> post_engagement ans q = Some e -> e <= 0)
  \/ exists pre p rest e,
       ps = pre ++ p :: rest /\ best_performing_post sm = Some (id p)
       /\ post_engagement ans p = Some e /\ 0 < e
       /\ (forall q e', In q pre -> post_engagement ans q = Some e' -> e' < e)
       /\ (forall q e', In q rest -> post_engagement ans q = Some e' -> e' <= e).
Proof.
  unfold get_analytics_summary. intros E.
  inv_bind E. apply dt_add_days_neg_ok in Ea. subst a.
  repeat (inv_bind E).
  injection E as <-. cbv zeta. simpl best_performing_post.
  match goal with H : best_post_loop _ _ None 0 = Ok _ |- _ => apply best_post_loop_spec in H end.
  match goal with
  | H : (?r = None /\ _) \/ _ |- _ =>
      destruct H as [[-> Hall] | [pre [p [rest [e [Eps [Er [He [Hlt [Hpre Hrest]]]]]]]]]]
  end.
  - left. split; [reflexivity | exact Hall].
  - right. exists pre, p, rest, e. subst. repeat split; assumption.
Qed.

(** [summary_best_post] on two posts of engagements 3 and 5. *)
Lemma summary_best_post_witness :
  get_analytics_summary Samples.now_2024 Samples.summary_db 7 30
    = Ok (mkSummary 2 0 0 5 2 1 (NInt 0) (Some 2)) /\
  let ps := summary_posts (Samples.now_2024 - 30 * DAY) Samples.now_2024 7
                          (posts Samples.summary_db) in
  let ans := summary_analytics (map id ps) (analytics Samples.summary_db) in
  (best_performing_post (mkSummary 2 0 0 5 2 1 (NInt 0) (Some 2)) = None
   /\ forall q e, In q ps -> post_engagement ans q = Some e -> e <= 0)
  \/ exists pre p rest e,
       ps = pre ++ p :: rest
       /\ best_performing_post (mkSummary 2 0 0 5 2 1 (NInt 0) (Some 2)) = Some (id p)
       /\ post_engagement ans p = Some e /\ 0 < e
       /\ (forall q e', In q pre -> post_engagement ans q = Some e' -> e' < e)
       /\ (forall q e', In q rest -> post_engagement ans q = Some e' -> e' <= e).
Proof.
  assert (H : get_analytics_summary Samples.now_2024 Samples.summary_db 7 30
              = Ok (mkSummary 2 0 0 5 2 1 (NInt 0) (Some 2))) by (vm_compute; reflexivity).
  split; [exact H|].
  exact (summary_best_post _ _ _ _ _ H).
Defined.

Lemma summary_posts_empty start_date end_date uid tbl :
  end_date < start_date -> summary_posts start_date end_date uid tbl = [].
Proof.
  intros Hlt. unfold summary_posts. induction tbl as [|p tbl IH]; [reflexivity|].
  simpl. rewrite IH.
  destruct (published_time p) as [t|]; [|now rewrite andb_false_r].
  destruct (start_date <=? t) eqn:E1; [|now rewrite andb_false_r].
  apply Z.leb_le in E1.
  replace (t <=? end_date) with false by (symmetry; apply Z.leb_gt; lia).
  now rewrite andb_false_r.
Qed.

(** For a valid current time, a [days] whose start day
    [today - days] lies outside the calendar (before 0001-01-01 or after
    9999-12-31) makes the summary raise [OverflowError]; a negative [days]
    whose start day is in the calendar gives a window starting after now,
    hence an empty summary with no error. *)
Theorem summary_days_edges now d uid days :
  1 <= dt_date now <= MAXORDINAL ->
  (days < 0 -> dt_date now - days <= MAXORDINAL ->
   get_analytics_summary now d uid days = Ok (mkSummary 0 0 0 0 0 0 (NInt 0) None)) /\
  (dt_date now - days < 1 \/ MAXORDINAL < dt_date now - days ->
   get_analytics_summary now d uid days = Raise OverflowError).
Proof.
  intros Hnow. unfold get_analytics_summary, dt_add_days, MAX_DELTA_DAYS.
  split.
  - intros Hd Hmax.
    replace (999999999 <? Z.abs (- days)) with false
      by (symmetry; apply Z.ltb_ge; unfold MAXORDINAL in *; lia).
    replace ((1 <=? dt_date now + - days) && (dt_date now + - days <=? MAXORDINAL)) with true
      by (symmetry; apply andb_true_intro; split; [apply Z.leb_le | apply Z.leb_le]; lia).
    simpl py_bind. rewrite summary_posts_empty by (unfold DAY, HOUR, MINUTE, SECOND; lia).
    assert (Ha : summary_analytics (map id []) (analytics d) = []).
    { unfold summary_analytics. simpl. induction (analytics d) as [|a l IH]; [reflexivity|].
      exact IH. }
    rewrite Ha. reflexivity.
  - intros Hd.
    destruct (999999999 <? Z.abs (- days)); [reflexivity|].
    replace ((1 <=? dt_date now + - days) && (dt_date now + - days <=? MAXORDINAL)) with false
      by (symmetry; destruct Hd as [Hd | Hd];
          [apply andb_false_intro1; apply Z.leb_gt; lia
          | apply andb_false_intro2; apply Z.leb_gt; lia]).
    reflexivity.
Qed.

(** [summary_days_edges] at 2024-01-01, for [days] -1, 10^6 and -4 * 10^6. *)
Lemma summary_days_edges_witness :
  get_analytics_summary Samples.now_2024 Samples.summary_db 7 (-1)
    = Ok (mkSummary 0 0 0 0 0 0 (NInt 0) None) /\
  get_analytics_summary Samples.now_2024 Samples.summary_db 7 1000000 = Raise OverflowError /\
  get_analytics_summary Samples.now_2024 Samples.summary_db 7 (-4000000) = Raise OverflowError.
Proof.
  assert (Hd : dt_date Samples.now_2024 = 738886) by reflexivity.
  destruct (summary_days_edges Samples.now_2024 Samples.summary_db 7 (-1))
    as [H1 _]; [unfold MAXORDINAL; lia|].
  destruct (summary_days_edges Samples.now_2024 Samples.summary_db 7 1000000)
    as [_ H2]; [unfold MAXORDINAL; lia|].
  destruct (summary_days_edges Samples.now_2024 Samples.summary_db 7 (-4000000))
    as [_ H3]; [unfold MAXORDINAL; lia|].
  split; [apply H1; unfold MAXORDINAL; lia|].
  split; [apply H2; lia | apply H3; unfold MAXORDINAL; lia].
Defined.

(** ** Post metrics routes *)

(** [create_or_update_analytics] never creates a metrics record: when the
    post has none for the user, the constructor rejects the [data_points]
    keyword and raises [TypeError]. So both routes answer an error (500) for
    a post of the caller that has no metrics record, whatever the body, and
    the database is left unchanged. *)
Theorem metrics_routes_never_create U insert_new update_existing d (body : U) post_id uid :
  get_post_analytics d post_id uid = None ->
  create_or_update_analytics U insert_new update_existing d body post_id uid = Raise TypeError
  /\ (forall post, get_post d post_id = Some post -> author_id post = uid ->
      read_post_analytics U insert_new update_existing d body post_id uid = (d, AnServerError)
      /\ update_post_analytics U insert_new update_existing d body post_id uid
         = (d, AnServerError)).
Proof.
  intros Hnone.
  assert (Hc : create_or_update_analytics U insert_new update_existing d body post_id uid
               = Raise TypeError)
    by (unfold create_or_update_analytics; rewrite Hnone; reflexivity).
  split; [exact Hc|].
  intros post Hp Ha.
  unfold read_post_analytics, update_post_analytics.
  rewrite Hp, Ha, Z.eqb_refl, Hnone, Hc. split; reflexivity.
Qed.

(** [metrics_routes_never_create] for post 1 of user 7, which has no
    metrics record, with an update that stores the body's counts. *)
Lemma metrics_routes_never_create_witness :
  let ins := fun (d : Db) (pid uid : Z) (n : Z) =>
               let a := mkAnalytics pid uid (Some n) (Some 0) (Some 0) (Some 0) (Some 0)
                                    (Some 0) None in
               Ok (mkDb (posts d) (users d) (analytics d ++ [a]), a) in
  let upd := fun (d : Db) (a : Analytics) (n : Z) => Ok (d, a) in
  let d := mkDb [Samples.post_of 1 7] [] [] in
  get_post_analytics d 1 7 = None /\
  get_post d 1 = Some (Samples.post_of 1 7) /\ author_id (Samples.post_of 1 7) = 7 /\
  create_or_update_analytics Z ins upd d 5 1 7 = Raise TypeError
  /\ (forall post, get_post d 1 = Some post -> author_id post = 7 ->
      read_post_analytics Z ins upd d 5 1 7 = (d, AnServerError)
      /\ update_post_analytics Z ins upd d 5 1 7 = (d, AnServerError)).
Proof.
  cbv zeta. split; [reflexivity|]. split; [reflexivity|]. split; [reflexivity|].
  apply metrics_routes_never_create. reflexivity.
Defined.

(** ** One iteration of [worker_loop]: publish, then sync *)

(** In an iteration of [worker_loop], [sync_post_analytics] runs on what
    [process_scheduled_posts] committed. Every post that the publish cycle
    at [now] turned Published and whose stored LinkedIn identifier is not
    NULL (it is NULL when the publish answer has ["id": null]) passes the
    filter of the sync query run at any time up to one day later (the
    20-post limit is applied after). *)
Theorem worker_iteration_sync_selects_published now now' ext db :
  now' <= now + DAY ->
  let db' := fst (run_publish_cycle now ext db) in
  Forall2 (fun p0 p => status p0 <> PUBLISHED -> status p = PUBLISHED ->
                       linkedin_post_id p <> None ->
                       sync_eligible now' (analytics db') p = true)
          (posts db) (posts db').
Proof.
  intros Hle. cbv zeta.
  pose proof (publish_frame_steps now ext db) as H.
  induction H as [|p0 p P0 ps Hs _ IH]; constructor; [|exact IH].
  intros Hn Hp Hl.
  destruct Hs as [-> | [_ [_ [Hf | [_ Ht]]]]]; [contradiction | congruence |].
  unfold sync_eligible. rewrite Hp, Ht. simpl.
  destruct (linkedin_post_id p) as [x|]; [|contradiction]. simpl.
  replace (now' - DAY <=? now) with true by (symmetry; apply Z.leb_le; lia).
  reflexivity.
Qed.

(** [worker_iteration_sync_selects_published] with the sync an hour after
    the publish. *)
Lemma worker_iteration_sync_selects_published_witness :
  Samples.now_2024 + HOUR <= Samples.now_2024 + DAY /\
  let db' := fst (run_publish_cycle Samples.now_2024 (Samples.ext_with false) Samples.publish_db) in
  Forall2 (fun p0 p => status p0 <> PUBLISHED -> status p = PUBLISHED ->
                       linkedin_post_id p <> None ->
                       sync_eligible (Samples.now_2024 + HOUR) (analytics db') p = true)
          (posts Samples.publish_db) (posts db').
Proof.
  split; [unfold DAY, HOUR, MINUTE, SECOND; lia|].
  apply worker_iteration_sync_selects_published. unfold DAY, HOUR, MINUTE, SECOND; lia.
Defined.
